(** * convertaudio: a shallow embedding of [convertaudio.py]

    The script scans one folder, sniffs every allow-listed file with
    [file -b], decodes it to a WAV file with [opusdec], [oggdec] or [ffmpeg],
    encodes that WAV with [lame], and copies files that are MP3 already.

    The embedding follows the script function by function.  Everything the
    script does to the outside world goes through a small state-and-exception
    monad over a process state: a file system, the working directory and the
    trace of the calls the script issued.  External programs are one oracle,
    [run_tool], a parameter of the development. *)

From Stdlib Require Import ZArith Ascii String List Lia.
From stdpp Require Import gmap strings list fin_maps.

Local Open Scope Z_scope.

(** ** Python [str] operations used by the script and by [posixpath] *)

Module PyStr.

(** [s.startswith(p)] *)
Fixpoint startswith (s p : string) {struct p} : bool :=
  match p with
  | EmptyString => true
  | String a p' =>
      match s with
      | EmptyString => false
      | String b s' => Ascii.eqb b a && startswith s' p'
      end
  end.
#[global] Arguments startswith : simpl never.

(** [s.endswith(c)] for a one-character [c] *)
Fixpoint endswith_char (s : string) (c : ascii) : bool :=
  match s with
  | EmptyString => false
  | String a EmptyString => Ascii.eqb a c
  | String _ s' => endswith_char s' c
  end.

(** [s[:n]] and [s[n:]] for [0 <= n] *)
Fixpoint take (n : nat) (s : string) : string :=
  match n, s with
  | S n', String a s' => String a (take n' s')
  | _, _ => EmptyString
  end.

Fixpoint drop (n : nat) (s : string) : string :=
  match n, s with
  | S n', String _ s' => drop n' s'
  | _, _ => s
  end.

(** [s.rfind(c)]: the highest index of [c] in [s], or [-1]. *)
Fixpoint rfind_from (i : Z) (last : Z) (s : string) (c : ascii) : Z :=
  match s with
  | EmptyString => last
  | String a s' => rfind_from (i + 1) (if Ascii.eqb a c then i else last) s' c
  end.

Definition rfind (s : string) (c : ascii) : Z := rfind_from 0 (-1) s c.

(** [s[i:i+1] != c]; an index out of range gives the empty slice. *)
Definition char_at_differs (s : string) (i : Z) (c : ascii) : bool :=
  match String.get (Z.to_nat i) s with
  | Some a => negb (Ascii.eqb a c)
  | None => true
  end.

(** [s.rstrip(c)] *)
Fixpoint rstrip (s : string) (c : ascii) : string :=
  match s with
  | EmptyString => EmptyString
  | String a s' =>
      match rstrip s' c with
      | EmptyString => if Ascii.eqb a c then EmptyString else String a EmptyString
      | r => String a r
      end
  end.

(** [s == c * len(s)] *)
Fixpoint all_char (s : string) (c : ascii) : bool :=
  match s with
  | EmptyString => true
  | String a s' => Ascii.eqb a c && all_char s' c
  end.

(** [s.split(c)] *)
Fixpoint split (s : string) (c : ascii) : list string :=
  match s with
  | EmptyString => [EmptyString]
  | String a s' =>
      if Ascii.eqb a c then EmptyString :: split s' c
      else match split s' c with
           | h :: t => String a h :: t
           | [] => [String a EmptyString]
           end
  end.

Definition is_empty (s : string) : bool :=
  match s with EmptyString => true | _ => false end.

End PyStr.

(** ** [posixpath]: the [os.path] functions the script calls *)

Module PosixPath.
Import PyStr.

Definition sep : ascii := "/"%char.
Definition extsep : ascii := "."%char.

(** [os.path.join(a, b)] *)
Definition join (a b : string) : string :=
  if startswith b "/" then b
  else if is_empty a || endswith_char a sep then a +:+ b
  else a +:+ "/" +:+ b.

(** [os.path.split(p)] *)
Definition split (p : string) : string * string :=
  let i := Z.to_nat (rfind p sep + 1) in
  let head := take i p in
  let tail := drop i p in
  let head := if negb (is_empty head) && negb (all_char head sep)
              then rstrip head sep else head in
  (head, tail).

Definition basename (p : string) : string :=
  drop (Z.to_nat (rfind p sep + 1)) p.

Definition dirname (p : string) : string := fst (split p).

(** The loop of [genericpath._splitext] that skips the leading dots of the
    file name: [true] when it returns from inside the loop, that is when a
    character other than a dot stands before the last dot. *)
Fixpoint splitext_scan (n : nat) (p : string) (filenameIndex dotIndex : Z) : bool :=
  match n with
  | O => false
  | S n' =>
      if filenameIndex <? dotIndex then
        if char_at_differs p filenameIndex extsep then true
        else splitext_scan n' p (filenameIndex + 1) dotIndex
      else false
  end.

(** [os.path.splitext(p)] *)
Definition splitext (p : string) : string * string :=
  let sepIndex := rfind p sep in
  let dotIndex := rfind p extsep in
  if (sepIndex <? dotIndex)
     && splitext_scan (Z.to_nat (dotIndex - (sepIndex + 1))) p (sepIndex + 1) dotIndex
  then (take (Z.to_nat dotIndex) p, drop (Z.to_nat dotIndex) p)
  else (p, EmptyString).

(** The component loop of [os.path.normpath]; [new_comps] is kept with its
    last element first. *)
Fixpoint normpath_comps (initial_slashes : nat) (comps new_comps : list string)
  : list string :=
  match comps with
  | [] => rev new_comps
  | comp :: rest =>
      if bool_decide (comp = "") || bool_decide (comp = ".") then
        normpath_comps initial_slashes rest new_comps
      else if negb (bool_decide (comp = ".."))
              || (bool_decide (initial_slashes = O) && bool_decide (new_comps = []))
              || match new_comps with
                 | last :: _ => bool_decide (last = "..")
                 | [] => false
                 end
      then normpath_comps initial_slashes rest (comp :: new_comps)
      else normpath_comps initial_slashes rest (tl new_comps)
  end.

Fixpoint repeat_sep (n : nat) : string :=
  match n with O => EmptyString | S n' => String sep (repeat_sep n') end.

(** [os.path.normpath(path)] *)
Definition normpath (path : string) : string :=
  if is_empty path then "."
  else
    let initial_slashes :=
      if startswith path "/" then
        if startswith path "//" && negb (startswith path "///") then 2%nat else 1%nat
      else O in
    let comps := normpath_comps initial_slashes (PyStr.split path sep) [] in
    let path := repeat_sep initial_slashes +:+ String.concat "/" comps in
    if is_empty path then "." else path.

(** [os.path.abspath(path)] in a process whose working directory is [cwd] *)
Definition abspath (cwd path : string) : string :=
  normpath (if startswith path "/" then path else join cwd path).

End PosixPath.

(** ** The process state: file system, working directory, trace *)

Module OS.
Import PyStr PosixPath.

(** Python exceptions the modelled calls can raise. *)
Inductive exn :=
| FileNotFoundError
| FileExistsError
| IsADirectoryError
| NotADirectoryError
| SameFileError
| RecursionError
| OSError (msg : string).

Inductive result (A : Type) :=
| Ok (a : A)
| Raise (e : exn).
Arguments Ok {A} a.
Arguments Raise {A} e.

(** A file system is a finite map from path strings to nodes.  A directory
    lists the names of its entries in enumeration order.  Paths are compared
    as strings: there are no links, and the script only builds paths from
    an absolute, normalised folder. *)
Inductive node :=
| File (content : string)
| Dir (names : list string).

Abbreviation FS := (gmap string node).

(** [subprocess.CompletedProcess] with [capture_output=True, text=True] *)
Record CompletedProcess := {
  returncode : Z;
  stdout : string;
  stderr : string
}.

(** What the script does to the outside world, in order. *)
Inductive event :=
| EvPrint (line : string)
| EvRun (argv : list string) (outcome : result CompletedProcess)
| EvMakedirs (path : string)
| EvRemove (path : string)
| EvCopy (src dst : string).

Record state := {
  fs : FS;
  cwd : string;
  trace : list event
}.

Definition isfile (m : FS) (p : string) : bool :=
  match m !! p with Some (File _) => true | _ => false end.

Definition isdir (m : FS) (p : string) : bool :=
  match m !! p with Some (Dir _) => true | _ => false end.

Definition exists_ (m : FS) (p : string) : bool :=
  match m !! p with Some _ => true | None => false end.

(** Enter [p] in the listing of its parent directory [names]. *)
Definition link (names : list string) (p : string) : list string :=
  if bool_decide (basename p ∈ names) then names else names ++ [basename p].

(** Create node [n] at the free path [p]: the parent must be a directory. *)
Definition create (p : string) (n : node) (m : FS) : result FS :=
  match m !! dirname p with
  | Some (Dir names) => Ok (<[p := n]> (<[dirname p := Dir (link names p)]> m))
  | Some (File _) => Raise NotADirectoryError
  | None => Raise FileNotFoundError
  end.

(** [open(p, 'wb')] followed by writing [c] *)
Definition write_file (p : string) (c : string) (m : FS) : result FS :=
  match m !! p with
  | Some (Dir _) => Raise IsADirectoryError
  | Some (File _) => Ok (<[p := File c]> m)
  | None => create p (File c) m
  end.

(** [os.mkdir(p)] *)
Definition mkdir (p : string) (m : FS) : result FS :=
  match m !! p with
  | Some _ => Raise FileExistsError
  | None => create p (Dir []) m
  end.

(** [os.makedirs(name)] with [exist_ok=False]; the recursion of the library
    function is on the head of [name], which is shorter than [name], so
    [String.length name] levels are enough. *)
Fixpoint makedirs_rec (depth : nat) (name : string) (m : FS) : result FS :=
  let '(head, tail) := split name in
  let '(head, tail) := if is_empty tail then split head else (head, tail) in
  if negb (is_empty head) && negb (is_empty tail) && negb (exists_ m head) then
    match depth with
    | O => Raise RecursionError
    | S depth' =>
        let after_head :=
          match makedirs_rec depth' head m with
          | Ok m' => Ok m'
          | Raise FileExistsError => Ok m
          | Raise e => Raise e
          end in
        match after_head with
        | Ok m' => if bool_decide (tail = ".") then Ok m' else mkdir name m'
        | Raise e => Raise e
        end
    end
  else mkdir name m.

Definition makedirs (name : string) (m : FS) : result FS :=
  makedirs_rec (String.length name) name m.

(** [os.remove(p)] *)
Definition remove (p : string) (m : FS) : result FS :=
  match m !! p with
  | Some (File _) =>
      Ok (delete p
            match m !! dirname p with
            | Some (Dir names) =>
                <[dirname p := Dir (filter (λ n, n ≠ basename p) names)]> m
            | _ => m
            end)
  | Some (Dir _) => Raise IsADirectoryError
  | None => Raise FileNotFoundError
  end.

(** [shutil.copy(src, dst)]: into [dst] when it is a directory; the copy
    raises when both name the same file, when [src] cannot be opened for
    reading or the destination for writing. *)
Definition copy_target (m : FS) (src dst : string) : string :=
  if isdir m dst then join dst (basename src) else dst.

Definition copy (src dst : string) (m : FS) : result FS :=
  let dst := copy_target m src dst in
  if bool_decide (src = dst) && exists_ m src then Raise SameFileError
  else match m !! src with
       | None => Raise FileNotFoundError
       | Some (Dir _) => Raise IsADirectoryError
       | Some (File c) => write_file dst c m
       end.

(** [os.DirEntry]: name, path and the cached answer of [is_file()] *)
Record DirEntry := {
  name : string;
  path : string;
  is_file : bool
}.

(** [os.scandir(folder)], read as a whole when the iteration starts *)
Definition scandir (folder : string) (m : FS) : result (list DirEntry) :=
  match m !! folder with
  | Some (Dir names) =>
      Ok (map (λ n, {| name := n; path := join folder n;
                       is_file := isfile m (join folder n) |}) names)
  | Some (File _) => Raise NotADirectoryError
  | None => Raise FileNotFoundError
  end.

(** *** The monad: state passing with exceptions *)

Definition M (A : Type) : Type := state → result A * state.

#[global] Instance M_ret : MRet M := λ A a st, (Ok a, st).

#[global] Instance M_bind : MBind M := λ A B f c st,
  match c st with
  | (Ok a, st') => f a st'
  | (Raise e, st') => (Raise e, st')
  end.

Definition emit (e : event) (st : state) : state :=
  {| fs := fs st; cwd := cwd st; trace := trace st ++ [e] |}.

Definition with_fs (m : FS) (st : state) : state :=
  {| fs := m; cwd := cwd st; trace := trace st |}.

(** Run a file-system call, logged as event [e]. *)
Definition fs_call (e : event) (op : FS → result FS) : M unit := λ st,
  let st := emit e st in
  match op (fs st) with
  | Ok m => (Ok tt, with_fs m st)
  | Raise x => (Raise x, st)
  end.

Definition print (line : string) : M unit := λ st, (Ok tt, emit (EvPrint line) st).
Definition os_remove (p : string) : M unit := fs_call (EvRemove p) (remove p).
Definition os_makedirs (p : string) : M unit := fs_call (EvMakedirs p) (makedirs p).
Definition shutil_copy (src dst : string) : M unit := fs_call (EvCopy src dst) (copy src dst).
Definition os_path_isdir (p : string) : M bool := λ st, (Ok (isdir (fs st) p), st).
Definition os_path_abspath (p : string) : M string := λ st, (Ok (abspath (cwd st) p), st).
Definition os_scandir (folder : string) : M (list DirEntry) := λ st,
  (scandir folder (fs st), st).

(** [for x in l: body(x)] *)
Fixpoint for_each {A : Type} (l : list A) (body : A → M unit) : M unit :=
  match l with
  | [] => mret tt
  | x :: l' => body x ;; for_each l' body
  end.

End OS.

(** ** The script *)

Module ConvertAudio.
Import PyStr PosixPath OS.

Section Script.

(** [subprocess.run(argv, capture_output=True, text=True)]: the external
    program sees the file system and may change it; starting it can
    raise (a missing binary). *)
Variable run_tool : list string → FS → result CompletedProcess * FS.

Definition subprocess_run (argv : list string) : M CompletedProcess := λ st,
  let '(outcome, m) := run_tool argv (fs st) in
  (outcome, with_fs m (emit (EvRun argv outcome) st)).

Definition convert_to_mp3 (temp_file output_file : string) : M bool :=
  result ← subprocess_run ["lame"; "-h"; "-b"; "128"; temp_file; output_file];
  if returncode result =? 0 then
    os_remove temp_file ;;
    print ("Successfully saved " +:+ output_file) ;;
    mret true
  else
    print ("Error while trying to encode " +:+ temp_file +:+ " to MP3: "
           +:+ stdout result +:+ stderr result) ;;
    mret false.

Definition convert_audio (input_file output_file : string) : M unit :=
  sniffed ← subprocess_run ["file"; "-b"; input_file];
  let audio_type := stdout sniffed in
  let temp_file := output_file +:+ ".temp.wav" in
  if startswith audio_type "Ogg data, Opus audio" then
    result ← subprocess_run ["opusdec"; input_file; temp_file];
    if returncode result =? 0 then
      convert_to_mp3 temp_file output_file ;; mret tt
    else
      print ("Couldn't decode OPUS audio of " +:+ input_file +:+ ": "
             +:+ stdout result +:+ stderr result)
  else if startswith audio_type "Ogg data, Vorbis audio" then
    result ← subprocess_run ["oggdec"; input_file; "-o"; temp_file];
    if returncode result =? 0 then
      convert_to_mp3 temp_file output_file ;; mret tt
    else
      print ("Couldn't decode Ogg Vorbis audio of " +:+ input_file +:+ ": "
             +:+ stdout result +:+ stderr result)
  else if startswith audio_type "ISO Media, MPEG v4 system, 3GPP"
          || startswith audio_type "MPEG ADTS, AAC"
          || startswith audio_type "ISO Media, Apple iTunes ALAC/AAC-LC"
          || startswith audio_type "ISO Media, MP4 v2" then
    result ← subprocess_run ["ffmpeg"; "-y"; "-i"; input_file; temp_file];
    if returncode result =? 0 then
      convert_to_mp3 temp_file output_file ;; mret tt
    else
      print ("Couldn't decode MP4 audio of " +:+ input_file +:+ ": "
             +:+ stdout result +:+ stderr result)
  else if startswith audio_type "MPEG ADTS, layer III" then
    print (input_file +:+ " is already in MP3 format: No converting necessary, copying into output folder.") ;;
    shutil_copy input_file output_file
  else
    print ("Couldn't identify audio type '" +:+ audio_type +:+ "' of "
           +:+ input_file +:+ ", skipping").

(** The extensions the scan lets through. *)
Definition extensions : list string := [".ogg"; ".m4a"; ".opus"; ".aac"; ".mp4"].

(** The body of [for entry in item]. *)
Definition scan_entry (mp3_folder : string) (entry : DirEntry) : M unit :=
  if negb (startswith (name entry) ".") && is_file entry then
    let '(base_name, extension) := splitext (name entry) in
    if bool_decide (extension ∈ extensions) then
      convert_audio (path entry) (join mp3_folder (base_name +:+ ".mp3"))
    else
      print ("Skipping " +:+ name entry)
  else mret tt.

(** The [__main__] block, after [argparse] has read the one positional
    argument [args_folder]. *)
Definition main (args_folder : string) : M unit :=
  folder ← os_path_abspath args_folder;
  let mp3_folder := join folder "converted_to_mp3" in
  print ("Converting all audios in " +:+ folder +:+ ": Saving MP3 files to "
         +:+ mp3_folder) ;;
  present ← os_path_isdir mp3_folder;
  (if negb present then os_makedirs mp3_folder else mret tt) ;;
  item ← os_scandir folder;
  for_each item (scan_entry mp3_folder).

End Script.

End ConvertAudio.

(** ** Stand-ins for the external programs

    A small deterministic world to run the script in: [file -b] answers from
    the first bytes of a file, the decoders and the encoder wrap the bytes
    they read, and a program listed in [broken] exits with status 1. *)

Module Mock.
Import PyStr PosixPath OS.

Definition completed (rc : Z) (out err : string) : result CompletedProcess :=
  Ok {| returncode := rc; stdout := out; stderr := err |}.

(** What [file -b] prints for the content [c]. *)
Definition describe (c : string) : string :=
  if startswith c "OggS/opus" then "Ogg data, Opus audio, version 0.1, mono, 48000 Hz"
  else if startswith c "OggS/vorbis" then "Ogg data, Vorbis audio, stereo, 44100 Hz, ~128000 bps"
  else if startswith c "ftypM4A" then "ISO Media, Apple iTunes ALAC/AAC-LC (.M4A) Audio"
  else if startswith c "ftyp3gp" then "ISO Media, MPEG v4 system, 3GPP"
  else if startswith c "ftypmp42" then "ISO Media, MP4 v2 [ISO 14496-14]"
  else if startswith c "ADTS/aac" then "MPEG ADTS, AAC, v4 LC, 44.1 kHz, stereo"
  else if startswith c "ADTS/mp3" then "MPEG ADTS, layer III, v1, 128 kbps, 44.1 kHz, JntStereo"
  else "data".

(** A program that reads [src] and writes [wrap src-bytes] to [dst]. *)
Definition transcode (wrap : string → string) (src dst : string) (m : FS)
  : result CompletedProcess * FS :=
  match m !! src with
  | Some (File c) =>
      match write_file dst (wrap c) m with
      | Ok m' => (completed 0 "" "", m')
      | Raise _ => (completed 1 "" ("cannot write " +:+ dst), m)
      end
  | _ => (completed 1 "" ("cannot read " +:+ src), m)
  end.

Definition tools (broken : list string) (argv : list string) (m : FS)
  : result CompletedProcess * FS :=
  match argv with
  | prog :: args =>
      if bool_decide (prog ∈ broken) then (completed 1 "" (prog +:+ ": failed"), m)
      else match prog, args with
           | "file", ["-b"; p] =>
               match m !! p with
               | Some (File c) => (completed 0 (describe c) "", m)
               | Some (Dir _) => (completed 0 "directory" "", m)
               | None => (completed 0 ("cannot open `" +:+ p +:+ "'") "", m)
               end
           | "opusdec", [src; dst] => transcode (λ c, "WAV(" +:+ c +:+ ")") src dst m
           | "oggdec", [src; "-o"; dst] => transcode (λ c, "WAV(" +:+ c +:+ ")") src dst m
           | "ffmpeg", ["-y"; "-i"; src; dst] => transcode (λ c, "WAV(" +:+ c +:+ ")") src dst m
           | "lame", ["-h"; "-b"; "128"; src; dst] => transcode (λ c, "MP3(" +:+ c +:+ ")") src dst m
           | _, _ => (Raise FileNotFoundError, m)
           end
  | [] => (Raise (OSError "empty argv"), m)
  end.

(** No program installed: starting anything raises. *)
Definition none_installed (argv : list string) (m : FS) : result CompletedProcess * FS :=
  (Raise FileNotFoundError, m).

(** Programs that exit 0 and do nothing; [file] reports Opus. *)
Definition idle (argv : list string) (m : FS) : result CompletedProcess * FS :=
  match argv with
  | "file" :: _ => (completed 0 "Ogg data, Opus audio" "", m)
  | _ => (completed 0 "" "", m)
  end.

(** The folder of the scenario: [a.mp3], [b.ogg] (Vorbis), [c.m4a], [d.txt]. *)
Definition music : FS :=
  list_to_map [
    ("/", Dir ["music"]);
    ("/music", Dir ["a.mp3"; "b.ogg"; "c.m4a"; "d.txt"]);
    ("/music/a.mp3", File "ADTS/mp3 aaaa");
    ("/music/b.ogg", File "OggS/vorbis bbbb");
    ("/music/c.m4a", File "ftypM4A cccc");
    ("/music/d.txt", File "notes")
  ].

(** A folder with two files of one base name, enumerated in the order
    [names]. *)
Definition songs (names : list string) : FS :=
  list_to_map [
    ("/", Dir ["music"]);
    ("/music", Dir names);
    ("/music/song.ogg", File "OggS/vorbis from-ogg");
    ("/music/song.m4a", File "ftypM4A from-m4a")
  ].

Definition boot (m : FS) : state := {| fs := m; cwd := "/"; trace := [] |}.

(** The outcome the scenario was expected to have, read on the final file
    system: [a.mp3] copied, [b.mp3] and [c.mp3] produced, nothing for
    [d.txt]. *)
Definition scenario_expected (final : FS) : Prop :=
  isfile final "/music/converted_to_mp3/a.mp3" = true ∧
  final !! "/music/converted_to_mp3/a.mp3" = final !! "/music/a.mp3" ∧
  isfile final "/music/converted_to_mp3/b.mp3" = true ∧
  isfile final "/music/converted_to_mp3/c.mp3" = true ∧
  final !! "/music/converted_to_mp3/d.mp3" = None.

End Mock.

(** ** Reading a trace

    The notions the statements below are written in: the five branches of the
    dispatcher, which of them a stretch of the trace shows, which programs
    were started, and which paths a call was told to write. *)

Module Observe.
Import PyStr PosixPath OS ConvertAudio.

Inductive branch :=
| DecodeOpus
| DecodeVorbis
| DecodeMpeg4
| CopyMp3
| SkipUnknown.

(** The [if]/[elif] chain of [convert_audio] read as a table: the first
    test that holds names the branch. *)
Definition select (audio_type : string) : branch :=
  if startswith audio_type "Ogg data, Opus audio" then DecodeOpus
  else if startswith audio_type "Ogg data, Vorbis audio" then DecodeVorbis
  else if startswith audio_type "ISO Media, MPEG v4 system, 3GPP"
          || startswith audio_type "MPEG ADTS, AAC"
          || startswith audio_type "ISO Media, Apple iTunes ALAC/AAC-LC"
          || startswith audio_type "ISO Media, MP4 v2" then DecodeMpeg4
  else if startswith audio_type "MPEG ADTS, layer III" then CopyMp3
  else SkipUnknown.

(** The signatures the chain tests for: six that lead to a decoder, and the
    one of a file that is MP3 already. *)
Definition decoder_signatures : list string :=
  ["Ogg data, Opus audio"; "Ogg data, Vorbis audio";
   "ISO Media, MPEG v4 system, 3GPP"; "MPEG ADTS, AAC";
   "ISO Media, Apple iTunes ALAC/AAC-LC"; "ISO Media, MP4 v2"].

Definition mp3_signature : string := "MPEG ADTS, layer III".

Definition signatures : list string := decoder_signatures ++ [mp3_signature].

Definition matches_any (audio_type : string) (sigs : list string) : bool :=
  existsb (startswith audio_type) sigs.

(** The command line each decoding branch starts. *)
Definition decoder_argv (b : branch) (input_file temp_file : string) : list string :=
  match b with
  | DecodeOpus => ["opusdec"; input_file; temp_file]
  | DecodeVorbis => ["oggdec"; input_file; "-o"; temp_file]
  | DecodeMpeg4 => ["ffmpeg"; "-y"; "-i"; input_file; temp_file]
  | _ => []
  end.

Definition encoder_argv (temp_file output_file : string) : list string :=
  ["lame"; "-h"; "-b"; "128"; temp_file; output_file].

Definition is_decoding (b : branch) : bool :=
  match b with DecodeOpus | DecodeVorbis | DecodeMpeg4 => true | _ => false end.

(** What a decoding branch prints when its decoder fails. *)
Definition decode_failure (b : branch) (input_file : string) (result : CompletedProcess)
  : string :=
  match b with
  | DecodeOpus => "Couldn't decode OPUS audio of "
  | DecodeVorbis => "Couldn't decode Ogg Vorbis audio of "
  | _ => "Couldn't decode MP4 audio of "
  end +:+ input_file +:+ ": " +:+ stdout result +:+ stderr result.

Definition already_mp3 (input_file : string) : string :=
  input_file +:+ " is already in MP3 format: No converting necessary, copying into output folder.".

Definition unidentified (audio_type input_file : string) : string :=
  "Couldn't identify audio type '" +:+ audio_type +:+ "' of " +:+ input_file +:+ ", skipping".

(** The body of branch [b] of [convert_audio], the three decoding branches
    written once. *)
Definition branch_body (run_tool : list string → FS → result CompletedProcess * FS)
    (b : branch) (input_file output_file audio_type : string) : M unit :=
  let temp_file := output_file +:+ ".temp.wav" in
  match b with
  | CopyMp3 => print (already_mp3 input_file) ;; shutil_copy input_file output_file
  | SkipUnknown => print (unidentified audio_type input_file)
  | _ =>
      result ← subprocess_run run_tool (decoder_argv b input_file temp_file);
      if returncode result =? 0 then
        convert_to_mp3 run_tool temp_file output_file ;; mret tt
      else print (decode_failure b input_file result)
  end.

(** The action by which an event shows a branch at work: starting one of the
    three decoders, or copying. *)
Definition action (e : event) : option branch :=
  match e with
  | EvRun ("opusdec" :: _) _ => Some DecodeOpus
  | EvRun ("oggdec" :: _) _ => Some DecodeVorbis
  | EvRun ("ffmpeg" :: _) _ => Some DecodeMpeg4
  | EvCopy _ _ => Some CopyMp3
  | _ => None
  end.

(** The branches a stretch of trace shows, in order; a stretch with no
    decoder and no copy is the skip. *)
Definition fired (delta : list event) : list branch :=
  match omap action delta with
  | [] => [SkipUnknown]
  | l => l
  end.

(** The calls one conversion issues, in order, read off the answers of the
    programs: the sniff; then, by branch, the decoder writing to the
    intermediate path [output_file + ".temp.wav"], [lame] from that path to
    the output path, and the removal of that path; or the copy to the output
    path; or the skip.  [m] is the file system the conversion starts in. *)
Definition conversion_calls (run_tool : list string → FS → result CompletedProcess * FS)
    (input_file output_file : string) (m : FS) : list event :=
  let temp_file := output_file +:+ ".temp.wav" in
  let sniff := ["file"; "-b"; input_file] in
  match run_tool sniff m with
  | (Raise e, _) => [EvRun sniff (Raise e)]
  | (Ok sniffed, m1) =>
      EvRun sniff (Ok sniffed) ::
      match select (stdout sniffed) with
      | CopyMp3 => [EvPrint (already_mp3 input_file); EvCopy input_file output_file]
      | SkipUnknown => [EvPrint (unidentified (stdout sniffed) input_file)]
      | b =>
          let decode := decoder_argv b input_file temp_file in
          match run_tool decode m1 with
          | (Raise e, _) => [EvRun decode (Raise e)]
          | (Ok decoded, m2) =>
              EvRun decode (Ok decoded) ::
              if returncode decoded =? 0 then
                let encode := ["lame"; "-h"; "-b"; "128"; temp_file; output_file] in
                match run_tool encode m2 with
                | (Raise e, _) => [EvRun encode (Raise e)]
                | (Ok encoded, m3) =>
                    EvRun encode (Ok encoded) ::
                    if returncode encoded =? 0 then
                      EvRemove temp_file ::
                      (if isfile m3 temp_file
                       then [EvPrint ("Successfully saved " +:+ output_file)]
                       else [])
                    else [EvPrint ("Error while trying to encode " +:+ temp_file
                                   +:+ " to MP3: " +:+ stdout encoded +:+ stderr encoded)]
                end
              else [EvPrint (decode_failure b input_file decoded)]
          end
      end
  end.

Definition is_decoder_run (e : event) : bool :=
  match e with
  | EvRun (prog :: _) _ => bool_decide (prog ∈ ["opusdec"; "oggdec"; "ffmpeg"])
  | _ => false
  end.

Definition is_encoder_run (e : event) : bool :=
  match e with
  | EvRun ("lame" :: _) _ => true
  | _ => false
  end.

Definition is_tool_run (e : event) : bool :=
  match e with EvRun _ _ => true | _ => false end.

(** How many events of a stretch of trace satisfy [f]. *)
Fixpoint count_events (f : event → bool) (delta : list event) : nat :=
  match delta with
  | [] => O
  | e :: delta' => ((if f e then 1 else 0) + count_events f delta')%nat
  end.

Definition decoder_runs (delta : list event) : nat := count_events is_decoder_run delta.
Definition encoder_runs (delta : list event) : nat := count_events is_encoder_run delta.

(** The paths a call names as a place to write to or to delete. *)
Definition written (e : event) : list string :=
  match e with
  | EvRun ["opusdec"; _; t] _ => [t]
  | EvRun ["oggdec"; _; "-o"; t] _ => [t]
  | EvRun ["ffmpeg"; "-y"; "-i"; _; t] _ => [t]
  | EvRun ["lame"; "-h"; "-b"; "128"; _; o] _ => [o]
  | EvRun _ _ => []
  | EvMakedirs p => [p]
  | EvRemove p => [p]
  | EvCopy _ d => [d]
  | EvPrint _ => []
  end.

(** A directory entry name as [scandir] yields them: no separator inside. *)
Definition plain_name (n : string) : Prop := rfind n sep = -1.

(** A directory path as [normpath] leaves it: not empty, and with no
    trailing separator unless it is all separators (the root). *)
Definition tidy_dir (d : string) : Prop :=
  d ≠ "" ∧ (endswith_char d sep = false ∨ all_char d sep = true).

(** An entry the scan lets through: not hidden, a regular file. *)
Definition visible_file (entry : DirEntry) : bool :=
  negb (startswith (name entry) ".") && is_file entry.

(** An entry the scan hands to [convert_audio]: visible, regular, with an
    allow-listed extension. *)
Definition dispatched (entry : DirEntry) : bool :=
  visible_file entry && bool_decide ((splitext (name entry)).2 ∈ extensions).

(** The file a sniff was run on. *)
Definition sniffed_path (e : event) : option string :=
  match e with
  | EvRun ["file"; "-b"; p] _ => Some p
  | _ => None
  end.

(** What [os.remove] raises on a path that is no regular file. *)
Definition remove_error (m : FS) (p : string) : exn :=
  if isdir m p then IsADirectoryError else FileNotFoundError.

(** "The entrypoint derives [output_file] for the entry": the scan of the
    entry is the conversion of its path to that output path. *)
Definition derives_output (run_tool : list string → FS → result CompletedProcess * FS)
    (mp3_folder : string) (entry : DirEntry) (output_file : string) (st : state) : Prop :=
  scan_entry run_tool mp3_folder entry st =
    convert_audio run_tool (path entry) output_file st.

(** Two regular files with one base name and two different allow-listed
    extensions both get the output path [<base>.mp3] in the output folder:
    the statement for any two regular files, hidden or not. *)
Definition same_base_same_output (run_tool : list string → FS → result CompletedProcess * FS)
    (mp3_folder : string) (e1 e2 : DirEntry) (st : state) : Prop :=
  ∀ base ext1 ext2,
    is_file e1 = true → is_file e2 = true →
    splitext (name e1) = (base, ext1) → splitext (name e2) = (base, ext2) →
    ext1 ∈ extensions → ext2 ∈ extensions → ext1 ≠ ext2 →
    derives_output run_tool mp3_folder e1 (join mp3_folder (base +:+ ".mp3")) st ∧
    derives_output run_tool mp3_folder e2 (join mp3_folder (base +:+ ".mp3")) st.

(** "Skipped, and logged as skipped": the entry is passed over and the one
    thing that happens is the message. *)
Definition skipped_and_logged (run_tool : list string → FS → result CompletedProcess * FS)
    (mp3_folder : string) (entry : DirEntry) (st : state) : Prop :=
  scan_entry run_tool mp3_folder entry st =
    (Ok tt, emit (EvPrint ("Skipping " +:+ name entry)) st).

End Observe.

(** * Properties *)

(** ** [posixpath] on a few paths *)

Module PathTests.
Import PosixPath.
Example splitext_1 : splitext "song.ogg" = ("song", ".ogg"). Proof. reflexivity. Qed.
Example splitext_2 : splitext ".ogg" = (".ogg", ""). Proof. reflexivity. Qed.
Example splitext_3 : splitext "a.b.m4a" = ("a.b", ".m4a"). Proof. reflexivity. Qed.
Example splitext_4 : splitext "..x" = ("..x", ""). Proof. reflexivity. Qed.
Example splitext_5 : splitext "README" = ("README", ""). Proof. reflexivity. Qed.
Example splitext_6 : splitext "a.d/b" = ("a.d/b", ""). Proof. reflexivity. Qed.
Example splitext_7 : splitext "a." = ("a", "."). Proof. reflexivity. Qed.
Example join_1 : join "/music" "converted_to_mp3" = "/music/converted_to_mp3".
Proof. reflexivity. Qed.
Example join_2 : join "/" "converted_to_mp3" = "/converted_to_mp3".
Proof. reflexivity. Qed.
Example join_3 : join "/music" "/etc/x" = "/etc/x". Proof. reflexivity. Qed.
Example split_1 : split "/music/converted_to_mp3" = ("/music", "converted_to_mp3").
Proof. reflexivity. Qed.
Example split_2 : split "/a" = ("/", "a"). Proof. reflexivity. Qed.
Example split_3 : split "a//b" = ("a", "b"). Proof. reflexivity. Qed.
Example split_4 : split "a/b/" = ("a/b", ""). Proof. reflexivity. Qed.
Example abspath_1 : abspath "/home/u" "music/../audio/./in/" = "/home/u/audio/in".
Proof. reflexivity. Qed.
Example abspath_2 : abspath "/home/u" "/srv//x/.." = "/srv". Proof. reflexivity. Qed.
Example abspath_3 : abspath "/home/u" "../../.." = "/". Proof. reflexivity. Qed.
Example abspath_4 : abspath "/home/u" "//srv" = "//srv". Proof. reflexivity. Qed.
Example abspath_5 : abspath "/home/u" "." = "/home/u". Proof. reflexivity. Qed.
End PathTests.

(** ** Strings and paths *)

Module StrFacts.
Import PyStr PosixPath.

Lemma append_cons a (s t : string) : String a s +:+ t = String a (s +:+ t).
Proof. reflexivity. Qed.

Lemma startswith_nil s : startswith s "" = true.
Proof. reflexivity. Qed.

Lemma startswith_cons b s a p :
  startswith (String b s) (String a p) = Ascii.eqb b a && startswith s p.
Proof. reflexivity. Qed.

Lemma startswith_app s p : startswith s p = true ↔ ∃ r, s = p +:+ r.
Proof.
  revert s. induction p as [|a p IH]; intros s.
  - split; [intros _; by exists s | done].
  - destruct s as [|b s].
    + split; [done | intros [r Hr]; discriminate].
    + rewrite startswith_cons, andb_true_iff, Ascii.eqb_eq, IH.
      split; [intros [-> [r ->]]; by exists r |].
      intros [r Hr]. rewrite append_cons in Hr. injection Hr as -> ->. eauto.
Qed.

(** Two prefixes of one string are comparable. *)
Lemma startswith_comparable s p q :
  startswith s p = true → startswith s q = true →
  startswith p q || startswith q p = true.
Proof.
  revert s q. induction p as [|a p IH]; intros s q.
  - intros _ _. by destruct q.
  - destruct s as [|b s]; [done |].
    destruct q as [|c q]; [done |].
    rewrite !startswith_cons, !andb_true_iff, !Ascii.eqb_eq. intros [-> Hp] [-> Hq].
    rewrite Ascii.eqb_refl. cbn [andb]. eauto.
Qed.

Lemma append_nil_r s : s +:+ "" = s.
Proof. induction s as [|a s IH]; [done | by rewrite append_cons, IH]. Qed.

Lemma append_assoc (s t u : string) : (s +:+ t) +:+ u = s +:+ t +:+ u.
Proof. induction s as [|a s IH]; [done | by rewrite !append_cons, IH]. Qed.

Lemma length_append (s t : string) :
  String.length (s +:+ t) = (String.length s + String.length t)%nat.
Proof. induction s as [|a s IH]; [done | rewrite append_cons; simpl; by rewrite IH]. Qed.

(** A string is not its own proper extension. *)
Lemma append_ne_self (s t : string) : t ≠ "" → s +:+ t ≠ s.
Proof.
  intros Ht H. apply (f_equal String.length) in H. rewrite length_append in H.
  destruct t; [done | simpl in H; lia].
Qed.

Lemma take_drop n s : take n s +:+ drop n s = s.
Proof.
  revert s. induction n as [|n IH]; intros [|a s]; simpl; try done.
  by rewrite append_cons, IH.
Qed.

Lemma length_take n s : (String.length (take n s) ≤ String.length s)%nat.
Proof.
  revert s. induction n as [|n IH]; intros [|a s]; simpl; try lia.
  specialize (IH s). lia.
Qed.

Lemma length_rstrip s c : (String.length (rstrip s c) ≤ String.length s)%nat.
Proof.
  induction s as [|a s IH]; simpl; [lia |].
  destruct (rstrip s c); simpl in *; [destruct (Ascii.eqb a c); simpl; lia | lia].
Qed.

Lemma length_dirname p : (String.length (dirname p) ≤ String.length p)%nat.
Proof.
  unfold dirname, split; simpl.
  pose proof (length_take (Z.to_nat (rfind p sep + 1)) p).
  destruct (_ && _); [| done].
  etrans; [apply length_rstrip | done].
Qed.

(** [splitext] cuts its argument in two. *)
Lemma splitext_app p base ext : splitext p = (base, ext) → base +:+ ext = p.
Proof.
  unfold splitext. destruct (_ && _); intros [= <- <-].
  - apply take_drop.
  - apply append_nil_r.
Qed.


(** *** Where [rfind] points *)

Lemma rfind_from_ge i last s c : last < i → last ≤ rfind_from i last s c.
Proof.
  revert i last. induction s as [|a s IH]; intros i last Hlt; simpl; [lia |].
  destruct (Ascii.eqb a c).
  - specialize (IH (i + 1) i). lia.
  - specialize (IH (i + 1) last). lia.
Qed.

Lemma rfind_ge s c : -1 ≤ rfind s c.
Proof. apply rfind_from_ge. lia. Qed.

(** The scan from index [i] is the scan from 0, shifted. *)
Lemma rfind_from_shift i last s c :
  rfind_from i last s c = if rfind s c =? -1 then last else i + rfind s c.
Proof.
  unfold rfind. revert i last. induction s as [|a s IH]; intros i last; simpl; [done |].
  rewrite (IH (i + 1)), (IH 1).
  pose proof (rfind_ge s c) as Hge. unfold rfind in Hge.
  destruct (Z.eqb_spec (rfind_from 0 (-1) s c) (-1)) as [Hs|Hs].
  - destruct (Ascii.eqb a c); simpl; [f_equal; lia | done].
  - destruct (Z.eqb_spec (1 + rfind_from 0 (-1) s c) (-1)); lia.
Qed.

Lemma rfind_cons a s c :
  rfind (String a s) c =
    if rfind s c =? -1 then (if Ascii.eqb a c then 0 else -1) else 1 + rfind s c.
Proof. unfold rfind at 1. simpl. apply rfind_from_shift. Qed.

Lemma rfind_lt s c : rfind s c < Z.of_nat (String.length s).
Proof.
  induction s as [|a s IH]; [done |]. rewrite rfind_cons.
  change (String.length (String a s)) with (S (String.length s)).
  destruct (Z.eqb_spec (rfind s c) (-1)); [destruct (Ascii.eqb a c) |]; lia.
Qed.

(** No [c] in [a] and none in [b]: none in [a ++ b], and back. *)
Lemma rfind_app_none a b c :
  rfind (a +:+ b) c = -1 ↔ rfind a c = -1 ∧ rfind b c = -1.
Proof.
  induction a as [|x a IH]; [by intuition |].
  rewrite append_cons, !rfind_cons.
  pose proof (rfind_ge (a +:+ b) c). pose proof (rfind_ge a c).
  destruct (Z.eqb_spec (rfind (a +:+ b) c) (-1)) as [Hab|Hab];
    destruct (Z.eqb_spec (rfind a c) (-1)) as [Ha|Ha];
    destruct (Ascii.eqb x c); intuition lia.
Qed.

(** The last [c] of [a ++ c ++ b], when [b] has none, stands at [len a]. *)
Lemma rfind_app a b c :
  rfind b c = -1 → rfind (a +:+ String c b) c = Z.of_nat (String.length a).
Proof.
  intros Hb. induction a as [|x a IH].
  - change ("" +:+ String c b) with (String c b).
    by rewrite rfind_cons, Hb, Ascii.eqb_refl.
  - rewrite append_cons, rfind_cons, IH.
    change (String.length (String x a)) with (S (String.length a)).
    destruct (Z.eqb_spec (Z.of_nat (String.length a)) (-1)); lia.
Qed.

Lemma take_app a b : take (String.length a) (a +:+ b) = a.
Proof. induction a as [|x a IH]; [by destruct b | simpl; by rewrite IH]. Qed.

Lemma drop_app a b : drop (String.length a) (a +:+ b) = b.
Proof. induction a as [|x a IH]; [by destruct b | done]. Qed.

Lemma startswith_plain n : rfind n sep = -1 → startswith n "/" = false.
Proof.
  destruct n as [|a n]; [done |]. rewrite rfind_cons, startswith_cons.
  pose proof (rfind_ge n sep).
  destruct (Z.eqb_spec (rfind n sep) (-1)); [| lia].
  fold sep. destruct (Ascii.eqb a sep); [lia | done].
Qed.

Lemma endswith_plain s c : rfind s c = -1 → endswith_char s c = false.
Proof.
  induction s as [|a s IH]; [done |]. rewrite rfind_cons.
  pose proof (rfind_ge s c).
  destruct (Z.eqb_spec (rfind s c) (-1)) as [Hs|]; [| lia].
  destruct (Ascii.eqb a c) eqn:Hac; [lia |]. intros _.
  simpl. rewrite Hac. destruct s; [done | by apply IH].
Qed.

Lemma endswith_char_app a b c :
  b ≠ "" → endswith_char (a +:+ b) c = endswith_char b c.
Proof.
  intros Hb. induction a as [|x a IH]; [done |].
  rewrite append_cons. simpl. rewrite IH.
  destruct (a +:+ b) eqn:Hab; [| done].
  destruct a; [by destruct Hb | discriminate].
Qed.

(** *** [rstrip] and strings of one character *)

Lemma rstrip_id s c : endswith_char s c = false → rstrip s c = s.
Proof.
  induction s as [|a s IH]; [done |]. simpl.
  destruct s as [|b s].
  - by intros ->.
  - intros H. by rewrite (IH H).
Qed.

Lemma rstrip_snoc a c : rstrip (a +:+ String c "") c = rstrip a c.
Proof.
  induction a as [|x a IH].
  - simpl. change ("" +:+ String c "") with (String c ""). simpl.
    by rewrite Ascii.eqb_refl.
  - rewrite append_cons. simpl. by rewrite IH.
Qed.

Lemma all_char_app a b c : all_char (a +:+ b) c = all_char a c && all_char b c.
Proof.
  induction a as [|x a IH]; [done |].
  rewrite append_cons. simpl. by rewrite IH, andb_assoc.
Qed.

Lemma all_char_not s c : s ≠ "" → endswith_char s c = false → all_char s c = false.
Proof.
  induction s as [|a s IH]; [done |]. intros _. simpl.
  destruct s as [|b s].
  - by intros ->.
  - intros H. rewrite IH by done. apply andb_false_r.
Qed.

Lemma all_char_snoc s c : s ≠ "" → all_char s c = true → ∃ a, s = a +:+ String c "".
Proof.
  induction s as [|x s IH]; [done |]. intros _. simpl.
  rewrite andb_true_iff, Ascii.eqb_eq. intros [-> Hs].
  destruct s as [|y s]; [by exists "" |].
  destruct (IH ltac:(done) Hs) as [a ->]. by exists (String c a).
Qed.

Import OS Observe.

(** *** [split] undoes [join] *)

Lemma join_tidy d n :
  tidy_dir d → plain_name n →
  join d n = if endswith_char d sep then d +:+ n else d +:+ "/" +:+ n.
Proof.
  intros [Hd _] Hn. unfold join. rewrite (startswith_plain _ Hn).
  destruct d; [done |]. done.
Qed.

Lemma split_join d n : tidy_dir d → plain_name n → split (join d n) = (d, n).
Proof.
  intros Hd Hn. rewrite join_tidy by done. destruct Hd as [Hne [Hend|Hall]].
  - rewrite Hend. unfold split.
    change (d +:+ "/" +:+ n) with (d +:+ String sep n).
    rewrite rfind_app by done.
    replace (Z.to_nat (Z.of_nat (String.length d) + 1))
      with (String.length (d +:+ String sep "")) by (rewrite length_append; simpl; lia).
    replace (d +:+ String sep n) with ((d +:+ String sep "") +:+ n)
      by (by rewrite append_assoc).
    rewrite take_app, drop_app.
    rewrite all_char_app, (all_char_not d sep) by done.
    assert (is_empty (d +:+ String sep "") = false) as -> by (by destruct d).
    cbn [negb andb]. by rewrite rstrip_snoc, rstrip_id.
  - destruct (all_char_snoc d sep Hne Hall) as [a ->].
    rewrite endswith_char_app by done. cbn [endswith_char]. rewrite Ascii.eqb_refl.
    unfold split. rewrite append_assoc.
    change (String sep "" +:+ n) with (String sep n).
    rewrite rfind_app by done.
    replace (Z.to_nat (Z.of_nat (String.length a) + 1))
      with (String.length (a +:+ String sep "")) by (rewrite length_append; simpl; lia).
    replace (a +:+ String sep n) with ((a +:+ String sep "") +:+ n)
      by (by rewrite append_assoc).
    rewrite take_app, drop_app, Hall. by rewrite andb_false_r.
Qed.

Lemma dirname_join d n : tidy_dir d → plain_name n → dirname (join d n) = d.
Proof. intros. unfold dirname. by rewrite split_join. Qed.

Lemma basename_join d n : tidy_dir d → plain_name n → basename (join d n) = n.
Proof.
  intros Hd Hn. pose proof (split_join d n Hd Hn) as H.
  unfold split in H. by injection H.
Qed.

(** A path that [join] ends in a plain, non-empty name is tidy again. *)
Lemma join_tidy_dir d n : tidy_dir d → plain_name n → n ≠ "" → tidy_dir (join d n).
Proof.
  intros Hd Hn Hne. rewrite join_tidy by done.
  assert (endswith_char n sep = false) as Hend by by apply endswith_plain.
  split.
  - destruct Hd as [Hd _]. destruct d as [|a d]; [done |].
    destruct (endswith_char (String a d) sep); by rewrite append_cons.
  - left. destruct (endswith_char d sep).
    + by rewrite endswith_char_app.
    + rewrite endswith_char_app by done.
      change ("/" +:+ n) with (String sep n). simpl. by destruct n.
Qed.

(** *** [normpath] returns a tidy path *)

Lemma split_plain s : Forall (λ x, rfind x sep = -1) (PyStr.split s sep).
Proof.
  induction s as [|a s IH]; simpl; [by repeat constructor |].
  destruct (Ascii.eqb a sep) eqn:Ha; [by constructor |].
  destruct (PyStr.split s sep) as [|h t]; [by repeat constructor; rewrite rfind_cons, Ha |].
  apply Forall_cons in IH as [Hh Ht]. constructor; [| done].
  by rewrite rfind_cons, Hh, Ha.
Qed.

Lemma normpath_comps_plain k comps new_comps :
  Forall (λ x, rfind x sep = -1) comps →
  Forall (λ x, x ≠ "" ∧ rfind x sep = -1) new_comps →
  Forall (λ x, x ≠ "" ∧ rfind x sep = -1) (normpath_comps k comps new_comps).
Proof.
  revert new_comps. induction comps as [|comp rest IH]; intros new_comps Hc Hn; simpl.
  - by apply Forall_rev.
  - apply Forall_cons in Hc as [Hcomp Hrest].
    destruct (bool_decide (comp = "")) eqn:He; [by apply IH |].
    apply bool_decide_eq_false in He.
    destruct (bool_decide (comp = ".")); [by apply IH |]. cbn [orb].
    destruct (_ || _); apply IH; try done.
    + by constructor.
    + destruct new_comps; [done |]. by apply Forall_cons in Hn as [_ ?].
Qed.

Lemma concat_plain (comps : list string) :
  Forall (λ x, x ≠ "" ∧ rfind x sep = -1) comps → comps ≠ [] →
  String.concat "/" comps ≠ "" ∧ endswith_char (String.concat "/" comps) sep = false.
Proof.
  induction 1 as [|x comps [Hx Hplain] _ IH]; [done |]. intros _.
  destruct comps as [|y comps].
  - simpl. split; [done | by apply endswith_plain].
  - destruct (IH ltac:(done)) as [Hne Hend].
    change (String.concat "/" (x :: y :: comps))
      with (x +:+ "/" +:+ String.concat "/" (y :: comps)).
    split.
    + destruct x; [done | discriminate].
    + rewrite !endswith_char_app; done.
Qed.

Lemma all_char_repeat_sep k : all_char (repeat_sep k) sep = true.
Proof. induction k; [done | simpl; by rewrite IHk]. Qed.

Lemma normpath_tidy p : tidy_dir (normpath p).
Proof.
  unfold normpath. destruct (is_empty p); [by split; [| left] |].
  set (k := if startswith p "/" then _ else _).
  set (comps := normpath_comps k (PyStr.split p sep) []).
  assert (Forall (λ x, x ≠ "" ∧ rfind x sep = -1) comps) as Hcomps.
  { apply normpath_comps_plain; [apply split_plain | constructor]. }
  destruct (is_empty (repeat_sep k +:+ String.concat "/" comps)) eqn:Hemp;
    [by split; [| left] |].
  split; [by destruct (repeat_sep k +:+ String.concat "/" comps) |].
  destruct comps as [|x comps'] eqn:Hc.
  - right. cbn [String.concat]. rewrite append_nil_r. apply all_char_repeat_sep.
  - left. destruct (concat_plain (x :: comps') Hcomps ltac:(done)) as [Hne Hend].
    by rewrite endswith_char_app.
Qed.

Lemma abspath_tidy cwd p : tidy_dir (abspath cwd p).
Proof. apply normpath_tidy. Qed.

Lemma join_no_trailing_sep d n :
  tidy_dir d → plain_name n → n ≠ "" →
  join d n ≠ "" ∧ endswith_char (join d n) sep = false.
Proof.
  intros Hd Hn Hne. destruct (join_tidy_dir d n Hd Hn Hne) as [H _]. split; [done |].
  rewrite join_tidy by done.
  assert (endswith_char n sep = false) as Hend by by apply endswith_plain.
  destruct (endswith_char d sep).
  - by rewrite endswith_char_app.
  - rewrite endswith_char_app by done.
    change ("/" +:+ n) with (String sep n). simpl. by destruct n.
Qed.

Lemma join_under d n :
  d ≠ "" → endswith_char d sep = false → plain_name n → join d n = d +:+ "/" +:+ n.
Proof.
  intros Hd Hend Hn. unfold join. rewrite (startswith_plain _ Hn), Hend.
  by destruct d.
Qed.
End StrFacts.

Module Facts.
Import PyStr PosixPath OS ConvertAudio Observe StrFacts.

(** *** The signatures exclude one another *)

Lemma signatures_exclusive s p q :
  p ∈ signatures → q ∈ signatures →
  startswith s p = true → startswith s q = true → p = q.
Proof.
  intros Hp Hq Hsp Hsq. pose proof (startswith_comparable _ _ _ Hsp Hsq) as H.
  assert (forallb (λ p, forallb (λ q, String.eqb p q
                                       || negb (startswith p q || startswith q p))
                          signatures) signatures = true) as Hall
    by (vm_compute; reflexivity).
  rewrite forallb_forall in Hall. apply list_elem_of_In in Hp, Hq.
  specialize (Hall p Hp). rewrite forallb_forall in Hall. specialize (Hall q Hq).
  rewrite H in Hall. cbn [negb] in Hall. rewrite orb_false_r in Hall.
  by apply String.eqb_eq.
Qed.

(** [select] by cases: which tests held. *)
Lemma select_cases s :
  match select s with
  | DecodeOpus => startswith s "Ogg data, Opus audio" = true
  | DecodeVorbis =>
      startswith s "Ogg data, Opus audio" = false ∧
      startswith s "Ogg data, Vorbis audio" = true
  | DecodeMpeg4 =>
      startswith s "Ogg data, Opus audio" = false ∧
      startswith s "Ogg data, Vorbis audio" = false ∧
      (startswith s "ISO Media, MPEG v4 system, 3GPP"
       || startswith s "MPEG ADTS, AAC"
       || startswith s "ISO Media, Apple iTunes ALAC/AAC-LC"
       || startswith s "ISO Media, MP4 v2") = true
  | CopyMp3 =>
      matches_any s decoder_signatures = false ∧
      startswith s "MPEG ADTS, layer III" = true
  | SkipUnknown => matches_any s signatures = false
  end.
Proof.
  unfold select, matches_any, signatures, decoder_signatures, mp3_signature.
  cbn [existsb app].
  destruct (startswith s "Ogg data, Opus audio"); [done |].
  destruct (startswith s "Ogg data, Vorbis audio"); [done |].
  destruct (startswith s "ISO Media, MPEG v4 system, 3GPP"); [done |].
  destruct (startswith s "MPEG ADTS, AAC"); [done |].
  destruct (startswith s "ISO Media, Apple iTunes ALAC/AAC-LC"); [done |].
  destruct (startswith s "ISO Media, MP4 v2"); [done |].
  destruct (startswith s "MPEG ADTS, layer III"); done.
Qed.

Lemma select_decoding s :
  is_decoding (select s) = matches_any s decoder_signatures.
Proof.
  unfold select, matches_any, decoder_signatures. cbn [existsb].
  destruct (startswith s "Ogg data, Opus audio"); [done |].
  destruct (startswith s "Ogg data, Vorbis audio"); [done |].
  destruct (startswith s "ISO Media, MPEG v4 system, 3GPP"); [done |].
  destruct (startswith s "MPEG ADTS, AAC"); [done |].
  destruct (startswith s "ISO Media, Apple iTunes ALAC/AAC-LC"); [done |].
  destruct (startswith s "ISO Media, MP4 v2"); [done |].
  by destruct (startswith s "MPEG ADTS, layer III").
Qed.

Lemma select_mp3 s : startswith s mp3_signature = true → select s = CopyMp3.
Proof.
  intros Hmp3.
  assert (∀ q, q ∈ decoder_signatures → startswith s q = false) as Hno.
  { intros q Hq. destruct (startswith s q) eqn:Hsq; [| done].
    assert (mp3_signature = q) as <-.
    { apply (signatures_exclusive s); [| | done..]; unfold signatures.
      - apply elem_of_app. right. apply list_elem_of_singleton. done.
      - apply elem_of_app. by left. }
    exfalso. revert Hq. unfold decoder_signatures, mp3_signature.
    rewrite !elem_of_cons, elem_of_nil. intros H.
    repeat (destruct H as [H|H]; [discriminate |]). done. }
  unfold select. unfold mp3_signature in Hmp3.
  rewrite !Hno, Hmp3 by (unfold decoder_signatures; repeat constructor). done.
Qed.

Lemma select_skip s : matches_any s signatures = false ↔ select s = SkipUnknown.
Proof.
  split.
  - unfold select, matches_any, signatures, decoder_signatures, mp3_signature.
    cbn [existsb app]. rewrite !orb_false_iff.
    intros (-> & -> & -> & -> & -> & -> & -> & _). done.
  - intros H. pose proof (select_cases s) as Hc. by rewrite H in Hc.
Qed.

Section WithTools.
Variable run_tool : list string → FS → result CompletedProcess * FS.

Lemma bind_eq {A B : Type} (c : M A) (f : A → M B) st :
  (c ≫= f) st =
    match c st with
    | (Ok a, st') => f a st'
    | (Raise e, st') => (Raise e, st')
    end.
Proof. reflexivity. Qed.

Lemma subprocess_run_eq argv st :
  subprocess_run run_tool argv st =
    (fst (run_tool argv (fs st)),
     with_fs (snd (run_tool argv (fs st)))
       (emit (EvRun argv (fst (run_tool argv (fs st)))) st)).
Proof. unfold subprocess_run. by destruct (run_tool argv (fs st)). Qed.

(** [convert_audio] is the sniff followed by the body of the selected branch. *)
Lemma convert_audio_eq input output st :
  convert_audio run_tool input output st =
    let '(outcome, m1) := run_tool ["file"; "-b"; input] (fs st) in
    let st1 := with_fs m1 (emit (EvRun ["file"; "-b"; input] outcome) st) in
    match outcome with
    | Raise e => (Raise e, st1)
    | Ok sniffed =>
        branch_body run_tool (select (stdout sniffed)) input output (stdout sniffed) st1
    end.
Proof.
  unfold convert_audio. rewrite bind_eq, subprocess_run_eq.
  destruct (run_tool _ _) as [[sniffed|e] m1]; [| reflexivity].
  cbn [fst snd].
  unfold select, branch_body, decoder_argv, decode_failure, already_mp3, unidentified.
  destruct (startswith _ "Ogg data, Opus audio"); [reflexivity |].
  destruct (startswith _ "Ogg data, Vorbis audio"); [reflexivity |].
  destruct (_ || _); [reflexivity |].
  destruct (startswith _ "MPEG ADTS, layer III"); reflexivity.
Qed.

Lemma convert_to_mp3_eq temp out st :
  convert_to_mp3 run_tool temp out st =
    let '(outcome, m1) := run_tool (encoder_argv temp out) (fs st) in
    let st1 := with_fs m1 (emit (EvRun (encoder_argv temp out) outcome) st) in
    match outcome with
    | Raise e => (Raise e, st1)
    | Ok cp =>
        if returncode cp =? 0 then
          match remove temp m1 with
          | Ok m2 => (Ok true, emit (EvPrint ("Successfully saved " +:+ out))
                                 (with_fs m2 (emit (EvRemove temp) st1)))
          | Raise x => (Raise x, emit (EvRemove temp) st1)
          end
        else (Ok false, emit (EvPrint ("Error while trying to encode " +:+ temp
                                       +:+ " to MP3: " +:+ stdout cp +:+ stderr cp)) st1)
    end.
Proof.
  unfold convert_to_mp3, encoder_argv. rewrite bind_eq, subprocess_run_eq.
  destruct (run_tool _ _) as [[cp|e] m1]; [| reflexivity].
  cbn [fst snd].
  destruct (returncode cp =? 0); [| reflexivity].
  rewrite bind_eq. unfold os_remove, fs_call.
  change (fs (emit _ (with_fs m1 _))) with m1.
  destruct (remove temp m1); reflexivity.
Qed.
Lemma remove_file temp (m : FS) :
  isfile m temp = true → ∃ m', remove temp m = Ok m' ∧ m' !! temp = None.
Proof.
  unfold isfile, remove. destruct (m !! temp) as [[c|ns]|]; try done.
  intros _. eexists. split; [done |]. apply lookup_delete_eq.
Qed.

(** C4: [convert_to_mp3] returns [True] only when [lame] exited with status
    0; when it did and the intermediate file is there, the file is deleted,
    the output path is logged and [True] is returned; when [lame] exited with
    another status, [False] is returned, the error is logged with the
    encoder's output, nothing is deleted and the file system is left as the
    encoder left it, so an intermediate file that was there still is. *)
Theorem convert_to_mp3_contract temp out st :
  let outcome := fst (run_tool (encoder_argv temp out) (fs st)) in
  let m1 := snd (run_tool (encoder_argv temp out) (fs st)) in
  let r := convert_to_mp3 run_tool temp out st in
  let ran := EvRun ["lame"; "-h"; "-b"; "128"; temp; out] outcome in
  (fst r = Ok true → ∃ cp, outcome = Ok cp ∧ returncode cp = 0) ∧
  (∀ cp, outcome = Ok cp → returncode cp = 0 → isfile m1 temp = true →
     fst r = Ok true ∧
     remove temp m1 = Ok (fs (snd r)) ∧
     fs (snd r) !! temp = None ∧
     trace (snd r) = trace st ++
       [ran; EvRemove temp; EvPrint ("Successfully saved " +:+ out)]) ∧
  (∀ cp, outcome = Ok cp → returncode cp ≠ 0 →
     fst r = Ok false ∧
     fs (snd r) = m1 ∧
     (isfile m1 temp = true → isfile (fs (snd r)) temp = true) ∧
     trace (snd r) = trace st ++
       [ran; EvPrint ("Error while trying to encode " +:+ temp +:+ " to MP3: "
                      +:+ stdout cp +:+ stderr cp)]).
Proof.
  intros outcome m1 r ran. subst r. rewrite convert_to_mp3_eq.
  subst outcome m1 ran. unfold encoder_argv.
  destruct (run_tool _ _) as [[cp|e] m1]; simpl.
  - destruct (Z.eqb_spec (returncode cp) 0) as [Hrc|Hrc].
    + split; [eauto |]. split; [| intros ? [= <-] ?; done].
      intros ? [= <-] _ Hfile. destruct (remove_file _ _ Hfile) as (m2 & -> & Hgone).
      simpl. by rewrite <- !app_assoc.
    + split; [| split].
      * simpl. discriminate.
      * intros ? [= <-] ?. done.
      * intros ? [= <-] _. simpl. by rewrite <- app_assoc.
  - split; [discriminate |]. split; discriminate.
Qed.


(** *** The encoder step and the branch bodies, event by event *)

Lemma convert_to_mp3_trace temp out st :
  ∃ rest,
    trace (snd (convert_to_mp3 run_tool temp out st)) =
      trace st ++ EvRun (encoder_argv temp out)
                    (fst (run_tool (encoder_argv temp out) (fs st))) :: rest ∧
    Forall (λ e, e = EvRemove temp ∨ ∃ line, e = EvPrint line) rest.
Proof.
  rewrite convert_to_mp3_eq.
  destruct (run_tool _ _) as [[cp|e] m1]; cbn [fst snd].
  - destruct (returncode cp =? 0).
    + destruct (remove temp m1).
      * exists [EvRemove temp; EvPrint ("Successfully saved " +:+ out)].
        split; [simpl; by rewrite <- !app_assoc |].
        apply Forall_cons; split; [by left |].
        apply Forall_cons; split; [right; by eexists | apply Forall_nil_2].
      * exists [EvRemove temp].
        split; [simpl; by rewrite <- !app_assoc |].
        apply Forall_cons; split; [by left | apply Forall_nil_2].
    + eexists [EvPrint _].
      split; [simpl; by rewrite <- !app_assoc |].
      apply Forall_cons; split; [right; by eexists | apply Forall_nil_2].
  - exists []. split; [done | apply Forall_nil_2].
Qed.

Lemma decoding_body_eq b input output audio_type st1 :
  is_decoding b = true →
  branch_body run_tool b input output audio_type st1 =
    let temp := output +:+ ".temp.wav" in
    let '(outcome, m2) := run_tool (decoder_argv b input temp) (fs st1) in
    let st2 := with_fs m2 (emit (EvRun (decoder_argv b input temp) outcome) st1) in
    match outcome with
    | Raise e => (Raise e, st2)
    | Ok result =>
        if returncode result =? 0 then
          match convert_to_mp3 run_tool temp output st2 with
          | (Ok _, st3) => (Ok tt, st3)
          | (Raise e, st3) => (Raise e, st3)
          end
        else (Ok tt, emit (EvPrint (decode_failure b input result)) st2)
    end.
Proof.
  intros Hb. destruct b; try done;
    unfold branch_body, subprocess_run at 1, mbind at 1, M_bind at 1;
    (destruct (run_tool _ _) as [[cp|e] m2]; [| done]);
    cbv beta iota; (destruct (returncode cp =? 0); [| done]);
    unfold mbind, M_bind; by destruct (convert_to_mp3 _ _ _ _) as [[ok|e] st3].
Qed.

Lemma copy_body_eq input output audio_type st1 :
  branch_body run_tool CopyMp3 input output audio_type st1 =
    let st2 := emit (EvCopy input output) (emit (EvPrint (already_mp3 input)) st1) in
    match copy input output (fs st1) with
    | Ok m2 => (Ok tt, with_fs m2 st2)
    | Raise e => (Raise e, st2)
    end.
Proof. done. Qed.

Lemma skip_body_eq input output audio_type st1 :
  branch_body run_tool SkipUnknown input output audio_type st1 =
    (Ok tt, emit (EvPrint (unidentified audio_type input)) st1).
Proof. done. Qed.

(** C8: when [file -b] prints something that starts with none of the seven
    signatures, [convert_audio] returns normally, its only calls are that
    sniff and the message that the file is skipped (no decoder, no encoder,
    no copy, no removal), and the file system is the one the sniffer left. *)
Theorem unidentified_type_is_skipped input output st sniffed m1 :
  run_tool ["file"; "-b"; input] (fs st) = (Ok sniffed, m1) →
  matches_any (stdout sniffed) signatures = false →
  convert_audio run_tool input output st =
    (Ok tt,
     {| fs := m1; cwd := cwd st;
        trace := trace st ++
          [EvRun ["file"; "-b"; input] (Ok sniffed);
           EvPrint ("Couldn't identify audio type '" +:+ stdout sniffed +:+ "' of "
                    +:+ input +:+ ", skipping")] |}).
Proof.
  intros Hrun Hnone. rewrite convert_audio_eq, Hrun.
  apply select_skip in Hnone. rewrite Hnone, skip_body_eq.
  unfold emit, with_fs; simpl. by rewrite <- app_assoc.
Qed.

(** *** Copying *)

Lemma write_file_ok p c (m : FS) :
  isdir m p = false → isfile m p = true ∨ isdir m (dirname p) = true →
  ∃ m', write_file p c m = Ok m' ∧ m' !! p = Some (File c) ∧
        ∀ q, q ≠ p → q ≠ dirname p ∨ isdir m q = false → m' !! q = m !! q.
Proof.
  unfold isdir, isfile, write_file, create.
  destruct (m !! p) as [[c0|ns]|] eqn:Hp; try done.
  - intros _ _. eexists. split; [done |].
    split; [apply lookup_insert_eq | intros q Hq _; by apply lookup_insert_ne].
  - intros _ [|Hparent]; [done |].
    destruct (m !! dirname p) as [[c1|ns]|] eqn:Hd; try done.
    eexists. split; [done |].
    split; [apply lookup_insert_eq |].
    intros q Hq [Hq'|Hq'].
    + by rewrite !lookup_insert_ne.
    + rewrite lookup_insert_ne by done.
      destruct (decide (dirname p = q)) as [<-|]; [by rewrite Hd in Hq' |].
      by rewrite lookup_insert_ne.
Qed.

Lemma copy_ok src dst c (m : FS) :
  m !! src = Some (File c) → isdir m dst = false → src ≠ dst →
  isfile m dst = true ∨ isdir m (dirname dst) = true →
  ∃ m', copy src dst m = Ok m' ∧ m' !! dst = Some (File c) ∧
        ∀ q, q ≠ dst → q ≠ dirname dst ∨ isdir m q = false → m' !! q = m !! q.
Proof.
  intros Hsrc Hnodir Hne Hdst. unfold copy, copy_target. rewrite Hnodir, Hsrc.
  rewrite bool_decide_eq_false_2 by done. cbn [andb].
  by apply write_file_ok.
Qed.

(** C6: when [file -b] reports [MPEG ADTS, layer III], [convert_audio] issues
    the sniff, one message and one [shutil.copy] of the input to the output
    path, and nothing else: no decoder, no encoder, no removal.  Its result
    and file system are those of the copy.  When the input is a regular file
    and the output path can be written (it is no directory and differs from
    the input; it exists, or its directory does), the output holds the bytes
    of the input, and every other path, the intermediate path among them,
    is as the sniffer left it (the listing of the output's directory apart,
    which gains the new name). *)
Theorem mp3_is_copied input output st sniffed m1 :
  run_tool ["file"; "-b"; input] (fs st) = (Ok sniffed, m1) →
  startswith (stdout sniffed) "MPEG ADTS, layer III" = true →
  let r := convert_audio run_tool input output st in
  let delta := [EvRun ["file"; "-b"; input] (Ok sniffed);
                EvPrint (input +:+ " is already in MP3 format: No converting necessary, copying into output folder.");
                EvCopy input output] in
  trace (snd r) = trace st ++ delta ∧
  decoder_runs delta = 0%nat ∧ encoder_runs delta = 0%nat ∧
  match copy input output m1 with
  | Ok m2 => fst r = Ok tt ∧ fs (snd r) = m2
  | Raise e => fst r = Raise e ∧ fs (snd r) = m1
  end ∧
  (∀ c, m1 !! input = Some (File c) → isdir m1 output = false → input ≠ output →
        isfile m1 output = true ∨ isdir m1 (dirname output) = true →
        fst r = Ok tt ∧
        fs (snd r) !! output = Some (File c) ∧
        fs (snd r) !! input = Some (File c) ∧
        fs (snd r) !! (output +:+ ".temp.wav") = m1 !! (output +:+ ".temp.wav") ∧
        ∀ q, q ≠ output → q ≠ dirname output ∨ isdir m1 q = false →
             fs (snd r) !! q = m1 !! q).
Proof.
  intros Hrun Hsig r delta. subst r.
  rewrite convert_audio_eq, Hrun. cbv beta iota.
  rewrite (select_mp3 _ Hsig), copy_body_eq. cbv zeta.
  change (fs (with_fs m1 _)) with m1.
  assert (∀ x, trace (snd (match copy input output m1 with
                           | Ok m2 => (Ok tt, with_fs m2 x)
                           | Raise e => (Raise e, x)
                           end : result unit * state)) = trace x) as Htr.
  { intros x. by destruct (copy input output m1). }
  split; [| split; [done | split; [done | split]]].
  - rewrite Htr. simpl. by rewrite <- !app_assoc.
  - by destruct (copy input output m1).
  - intros c Hin Hnodir Hne Hout.
    destruct (copy_ok _ _ _ _ Hin Hnodir Hne Hout) as (m2 & -> & Hcopy & Hframe).
    simpl. split; [done |]. split; [done |].
    split; [rewrite Hframe; [done.. |]; right; unfold isdir; by rewrite Hin |].
    split; [| done]. apply Hframe.
    + by apply append_ne_self.
    + left. intros Heq. pose proof (length_dirname output) as Hlen.
      rewrite <- Heq, length_append in Hlen. simpl in Hlen. lia.
Qed.

(** *** Counting the programs a conversion starts *)

Lemma quiet_tail temp (rest : list event) :
  Forall (λ e, e = EvRemove temp ∨ ∃ line, e = EvPrint line) rest →
  decoder_runs rest = 0%nat ∧ encoder_runs rest = 0%nat ∧ omap action rest = [].
Proof.
  unfold decoder_runs, encoder_runs.
  induction 1 as [|e rest [->|[line ->]] _ (IH1 & IH2 & IH3)]; [done | |];
    cbn; rewrite ?IH3; auto.
Qed.

Lemma decoder_argv_is_decoder b input temp o :
  is_decoding b = true →
  is_decoder_run (EvRun (decoder_argv b input temp) o) = true ∧
  is_encoder_run (EvRun (decoder_argv b input temp) o) = false ∧
  action (EvRun (decoder_argv b input temp) o) = Some b.
Proof. by destruct b. Qed.

Lemma for_each_cons {A : Type} (x : A) (l : list A) (body : A → M unit) st :
  for_each (x :: l) body st =
    match body x st with
    | (Ok _, st') => for_each l body st'
    | (Raise e, st') => (Raise e, st')
    end.
Proof. reflexivity. Qed.

(** C3: for a file whose sniffed type starts with one of the six decoder
    signatures, [convert_audio] starts, after the sniff, the decoder of the
    selected branch, and that is the only decoder run.  When the decoder
    exits 0, the next call is the one encoder run, [lame] on the intermediate
    file.  When it exits with another status, no encoder is run: the failure
    is printed, [convert_audio] returns normally with the file system as the
    decoder left it, and a loop over the entries goes on with the next one. *)
Theorem decoder_then_encoder input output st sniffed m1 :
  run_tool ["file"; "-b"; input] (fs st) = (Ok sniffed, m1) →
  matches_any (stdout sniffed) decoder_signatures = true →
  let temp := output +:+ ".temp.wav" in
  let b := select (stdout sniffed) in
  let decoded := run_tool (decoder_argv b input temp) m1 in
  let r := convert_audio run_tool input output st in
  is_decoding b = true ∧
  ∃ rest,
    let delta := EvRun ["file"; "-b"; input] (Ok sniffed)
                 :: EvRun (decoder_argv b input temp) (fst decoded) :: rest in
    trace (snd r) = trace st ++ delta ∧
    decoder_runs delta = 1%nat ∧
    (∀ cp, fst decoded = Ok cp → returncode cp = 0 →
       encoder_runs delta = 1%nat ∧
       ∃ rest', rest = EvRun ["lame"; "-h"; "-b"; "128"; temp; output]
                         (fst (run_tool ["lame"; "-h"; "-b"; "128"; temp; output]
                                 (snd decoded))) :: rest') ∧
    (∀ cp, fst decoded = Ok cp → returncode cp ≠ 0 →
       encoder_runs delta = 0%nat ∧
       rest = [EvPrint (decode_failure b input cp)] ∧
       fst r = Ok tt ∧
       fs (snd r) = snd decoded ∧
       ∀ (A : Type) (body : A → M unit) (x : A) (l : list A),
         body x st = r → for_each (x :: l) body st = for_each l body (snd r)).
Proof.
  intros Hrun Hsig temp b decoded r.
  assert (is_decoding b = true) as Hb by (subst b; by rewrite select_decoding).
  split; [done |]. subst r. rewrite convert_audio_eq, Hrun. cbv beta iota.
  fold b. rewrite decoding_body_eq by done. cbv zeta.
  change (fs (with_fs m1 _)) with m1. fold temp. subst decoded.
  destruct (decoder_argv_is_decoder b input temp
              (fst (run_tool (decoder_argv b input temp) m1)) Hb) as (Hdec & Henc & _).
  destruct (run_tool (decoder_argv b input temp) m1) as [[cp|e] m2] eqn:Hdecoded;
    cbn [fst snd] in *.
  - destruct (Z.eqb_spec (returncode cp) 0) as [Hrc|Hrc].
    + destruct (convert_to_mp3_trace temp output
                  (with_fs m2 (emit (EvRun (decoder_argv b input temp) (Ok cp))
                     (with_fs m1 (emit (EvRun ["file"; "-b"; input] (Ok sniffed)) st)))))
        as (rest' & Htr & Hquiet).
      destruct (quiet_tail _ _ Hquiet) as (Hd0 & He0 & _).
      eexists (EvRun (encoder_argv temp output) _ :: rest'). cbv zeta.
      split.
      { destruct (convert_to_mp3 _ _ _ _) as [[ok|x] st3]; cbn [snd] in *;
          rewrite Htr; cbn [trace with_fs emit fs]; by rewrite <- !app_assoc. }
      unfold decoder_runs, encoder_runs in *.
      split.
      { cbn [count_events]. rewrite Hdec, Hd0. done. }
      split; [| intros ? [= <-] ?; done].
      intros ? [= <-] _. split; [| by eexists].
      cbn [count_events]. rewrite Henc, He0. done.
    + exists [EvPrint (decode_failure b input cp)]. cbv zeta.
      split; [cbn [snd trace with_fs emit fs]; by rewrite <- !app_assoc |].
      unfold decoder_runs, encoder_runs.
      split; [cbn [count_events]; by rewrite Hdec |].
      split; [intros ? [= <-] ?; done |].
      intros ? [= <-] _.
      split; [cbn [count_events]; by rewrite Henc |].
      split; [done |]. split; [done |]. split; [done |].
      intros A body x l Hbody. by rewrite for_each_cons, Hbody.
  - exists []. cbv zeta.
    split; [cbn [snd trace with_fs emit fs]; by rewrite <- !app_assoc |].
    unfold decoder_runs.
    split; [cbn [count_events]; by rewrite Hdec |].
    split; discriminate.
Qed.

(** *** Which branch a conversion shows *)

Lemma fired_cons e rest b :
  action e = Some b → omap action rest = [] → fired (e :: rest) = [b].
Proof.
  intros He Hrest. unfold fired.
  change (omap action (e :: rest))
    with (match action e with Some y => y :: omap action rest | None => omap action rest end).
  by rewrite He, Hrest.
Qed.

Lemma branch_body_fired b input output audio_type st1 :
  ∃ delta,
    trace (snd (branch_body run_tool b input output audio_type st1)) = trace st1 ++ delta ∧
    fired delta = [b].
Proof.
  destruct (is_decoding b) eqn:Hb.
  - rewrite decoding_body_eq by done. cbv zeta.
    set (temp := output +:+ ".temp.wav").
    destruct (run_tool (decoder_argv b input temp) (fs st1)) as [[cp|e] m2].
    + destruct (returncode cp =? 0).
      * destruct (convert_to_mp3_trace temp output
                    (with_fs m2 (emit (EvRun (decoder_argv b input temp) (Ok cp)) st1)))
          as (rest & Htr & Hquiet).
        destruct (quiet_tail _ _ Hquiet) as (_ & _ & Hact).
        eexists (EvRun (decoder_argv b input temp) (Ok cp) :: EvRun _ _ :: rest).
        split.
        { destruct (convert_to_mp3 _ _ _ _) as [[ok|x] st3]; cbn [snd] in *;
            rewrite Htr; cbn [trace with_fs emit fs]; by rewrite <- !app_assoc. }
        apply fired_cons; [by apply decoder_argv_is_decoder |].
        by rewrite <- Hact.
      * exists [EvRun (decoder_argv b input temp) (Ok cp);
                EvPrint (decode_failure b input cp)].
        split; [cbn [snd trace with_fs emit fs]; by rewrite <- !app_assoc |].
        apply fired_cons; [by apply decoder_argv_is_decoder | done].
    + exists [EvRun (decoder_argv b input temp) (Raise e)].
      split; [done |].
      apply fired_cons; [by apply decoder_argv_is_decoder | done].
  - destruct b; try done.
    + rewrite copy_body_eq. cbv zeta.
      exists [EvPrint (already_mp3 input); EvCopy input output].
      split; [| done].
      destruct (copy input output (fs st1)); cbn [snd trace with_fs emit fs];
        by rewrite <- !app_assoc.
    + rewrite skip_body_eq. exists [EvPrint (unidentified audio_type input)].
      split; done.
Qed.

Lemma convert_audio_fired input output st sniffed m1 :
  run_tool ["file"; "-b"; input] (fs st) = (Ok sniffed, m1) →
  ∃ delta,
    trace (snd (convert_audio run_tool input output st)) =
      trace st ++ EvRun ["file"; "-b"; input] (Ok sniffed) :: delta ∧
    fired delta = [select (stdout sniffed)].
Proof.
  intros Hrun. rewrite convert_audio_eq, Hrun. cbv beta iota zeta.
  destruct (branch_body_fired (select (stdout sniffed)) input output (stdout sniffed)
              (with_fs m1 (emit (EvRun ["file"; "-b"; input] (Ok sniffed)) st)))
    as (delta & Htr & Hfired).
  exists delta. split; [| done].
  rewrite Htr. cbn [trace with_fs emit]. by rewrite <- app_assoc.
Qed.


(** *** The scan of one entry *)

Lemma scan_entry_filtered mp3_folder entry st :
  visible_file entry = false →
  scan_entry run_tool mp3_folder entry st = (Ok tt, st).
Proof. unfold scan_entry, visible_file. by intros ->. Qed.

Lemma scan_entry_other_extension mp3_folder entry st :
  visible_file entry = true →
  (splitext (name entry)).2 ∉ extensions →
  scan_entry run_tool mp3_folder entry st =
    (Ok tt, emit (EvPrint ("Skipping " +:+ name entry)) st).
Proof.
  unfold scan_entry, visible_file. intros -> Hext.
  destruct (splitext (name entry)) as [base ext].
  by rewrite bool_decide_eq_false_2.
Qed.

Lemma scan_entry_allowed mp3_folder entry st :
  visible_file entry = true →
  (splitext (name entry)).2 ∈ extensions →
  scan_entry run_tool mp3_folder entry st =
    convert_audio run_tool (path entry)
      (join mp3_folder ((splitext (name entry)).1 +:+ ".mp3")) st.
Proof.
  unfold scan_entry, visible_file. intros -> Hext.
  destruct (splitext (name entry)) as [base ext].
  by rewrite bool_decide_eq_true_2.
Qed.

(** C5, as the code has it: an entry that is hidden or is no regular file is
    passed over in silence, with no message and the state untouched; a
    visible regular file whose extension is not one of [.ogg .m4a .opus .aac
    .mp4] (compared as is) gets the one message [Skipping <name>].  In both
    cases the dispatcher is not entered, no program is started and the file
    system is unchanged. *)
Theorem filtered_entries_start_nothing mp3_folder entry st :
  (startswith (name entry) "." = true ∨ is_file entry = false →
     scan_entry run_tool mp3_folder entry st = (Ok tt, st)) ∧
  (startswith (name entry) "." = false → is_file entry = true →
   (splitext (name entry)).2 ∉ extensions →
     scan_entry run_tool mp3_folder entry st =
       (Ok tt, {| fs := fs st; cwd := cwd st;
                  trace := trace st ++ [EvPrint ("Skipping " +:+ name entry)] |})).
Proof.
  split.
  - intros H. apply scan_entry_filtered. unfold visible_file.
    destruct H as [-> | ->]; [done | apply andb_false_r].
  - intros Hdot Hfile Hext. apply scan_entry_other_extension; [| done].
    unfold visible_file. by rewrite Hdot, Hfile.
Qed.

(** *** The calls of one conversion, exactly *)

Lemma convert_audio_calls input output st :
  trace (snd (convert_audio run_tool input output st)) =
    trace st ++ conversion_calls run_tool input output (fs st).
Proof.
  rewrite convert_audio_eq. unfold conversion_calls.
  destruct (run_tool ["file"; "-b"; input] (fs st)) as [[sniffed|e] m1]; [| done].
  cbv zeta.
  set (st1 := with_fs m1 (emit (EvRun ["file"; "-b"; input] (Ok sniffed)) st)).
  set (temp := output +:+ ".temp.wav").
  assert (∀ b, is_decoding b = true →
    trace (snd (branch_body run_tool b input output (stdout sniffed) st1)) =
      trace st ++ EvRun ["file"; "-b"; input] (Ok sniffed) ::
        match run_tool (decoder_argv b input temp) m1 with
        | (Raise e, _) => [EvRun (decoder_argv b input temp) (Raise e)]
        | (Ok decoded, m2) =>
            EvRun (decoder_argv b input temp) (Ok decoded) ::
            if returncode decoded =? 0 then
              match run_tool ["lame"; "-h"; "-b"; "128"; temp; output] m2 with
              | (Raise e, _) => [EvRun ["lame"; "-h"; "-b"; "128"; temp; output] (Raise e)]
              | (Ok encoded, m3) =>
                  EvRun ["lame"; "-h"; "-b"; "128"; temp; output] (Ok encoded) ::
                  if returncode encoded =? 0 then
                    EvRemove temp ::
                    (if isfile m3 temp
                     then [EvPrint ("Successfully saved " +:+ output)]
                     else [])
                  else [EvPrint ("Error while trying to encode " +:+ temp
                                 +:+ " to MP3: " +:+ stdout encoded +:+ stderr encoded)]
              end
            else [EvPrint (decode_failure b input decoded)]
        end) as Hdecoding.
  { intros b Hb. rewrite decoding_body_eq by done. cbv zeta. fold temp.
    change (fs st1) with m1.
    destruct (run_tool (decoder_argv b input temp) m1) as [[decoded|e] m2];
      [| subst st1; cbn [snd trace with_fs emit]; by rewrite <- !app_assoc].
    destruct (returncode decoded =? 0);
      [| subst st1; cbn [snd trace with_fs emit]; by rewrite <- !app_assoc].
    rewrite convert_to_mp3_eq. unfold encoder_argv.
    change (fs (with_fs m2 _)) with m2.
    destruct (run_tool ["lame"; "-h"; "-b"; "128"; temp; output] m2) as [[encoded|e] m3];
      [| subst st1; cbn [snd trace with_fs emit]; by rewrite <- !app_assoc].
    destruct (returncode encoded =? 0);
      [| subst st1; cbn [snd trace with_fs emit]; by rewrite <- !app_assoc].
    destruct (isfile m3 temp) eqn:Hfile.
    - destruct (remove_file _ _ Hfile) as (m4 & -> & _).
      subst st1; cbn [snd trace with_fs emit]; by rewrite <- !app_assoc.
    - unfold isfile in Hfile. unfold remove.
      destruct (m3 !! temp) as [[c|ns]|]; try done;
        subst st1; cbn [snd trace with_fs emit]; by rewrite <- !app_assoc. }
  destruct (select (stdout sniffed)) eqn:Hsel; try (by apply Hdecoding).
  - rewrite copy_body_eq. cbv zeta.
    destruct (copy input output (fs st1)); subst st1;
      cbn [snd trace with_fs emit]; by rewrite <- !app_assoc.
  - rewrite skip_body_eq. subst st1. cbn [snd trace with_fs emit].
    by rewrite <- !app_assoc.
Qed.

(** In a decoding conversion the decoder is told to write the intermediate
    path, [lame] to read it and write the output path, and the removal is of
    the intermediate path. *)
Lemma conversion_calls_decoding input output (m : FS) sniffed m1 :
  run_tool ["file"; "-b"; input] m = (Ok sniffed, m1) →
  matches_any (stdout sniffed) decoder_signatures = true →
  let temp := output +:+ ".temp.wav" in
  let decode := decoder_argv (select (stdout sniffed)) input temp in
  let encode := ["lame"; "-h"; "-b"; "128"; temp; output] in
  written (EvRun decode (fst (run_tool decode m1))) = [temp] ∧
  ∃ rest,
    conversion_calls run_tool input output m =
      EvRun ["file"; "-b"; input] (Ok sniffed)
      :: EvRun decode (fst (run_tool decode m1)) :: rest ∧
    (∀ decoded, fst (run_tool decode m1) = Ok decoded → returncode decoded = 0 →
       ∃ rest',
         rest = EvRun encode (fst (run_tool encode (snd (run_tool decode m1)))) :: rest' ∧
         (∀ encoded,
            fst (run_tool encode (snd (run_tool decode m1))) = Ok encoded →
            returncode encoded = 0 →
            ∃ rest'', rest' = EvRemove temp :: rest'')).
Proof.
  intros Hrun Hsig temp decode encode.
  assert (is_decoding (select (stdout sniffed)) = true) as Hb
    by by rewrite select_decoding.
  split; [subst decode; by destruct (select (stdout sniffed)) |].
  unfold conversion_calls. rewrite Hrun. cbv zeta. fold temp.
  assert (∀ (f : branch → list event) (Y Z : list event),
            match select (stdout sniffed) with
            | DecodeOpus => f DecodeOpus
            | DecodeVorbis => f DecodeVorbis
            | DecodeMpeg4 => f DecodeMpeg4
            | CopyMp3 => Y
            | SkipUnknown => Z
            end = f (select (stdout sniffed))) as Hsel.
  { intros f Y Z. by destruct (select (stdout sniffed)). }
  rewrite (Hsel (λ b,
    match run_tool (decoder_argv b input temp) m1 with
    | (Raise e, _) => [EvRun (decoder_argv b input temp) (Raise e)]
    | (Ok decoded, m2) =>
        EvRun (decoder_argv b input temp) (Ok decoded) ::
        if returncode decoded =? 0 then
          match run_tool ["lame"; "-h"; "-b"; "128"; temp; output] m2 with
          | (Raise e, _) => [EvRun ["lame"; "-h"; "-b"; "128"; temp; output] (Raise e)]
          | (Ok encoded, m3) =>
              EvRun ["lame"; "-h"; "-b"; "128"; temp; output] (Ok encoded) ::
              if returncode encoded =? 0 then
                EvRemove temp ::
                (if isfile m3 temp
                 then [EvPrint ("Successfully saved " +:+ output)]
                 else [])
              else [EvPrint ("Error while trying to encode " +:+ temp
                             +:+ " to MP3: " +:+ stdout encoded +:+ stderr encoded)]
          end
        else [EvPrint (decode_failure b input decoded)]
    end)).
  fold decode. fold encode.
  destruct (run_tool decode m1) as [[decoded|e] m2]; cbn [fst snd];
    [| eexists; split; [done |]; intros ? [=]].
  eexists. split; [done |].
  intros ? [= <-] ->%Z.eqb_eq.
  destruct (run_tool encode m2) as [[encoded|e] m3]; cbn [fst snd];
    [| eexists; split; [done |]; intros ? [=]].
  eexists. split; [done |].
  intros ? [= <-] ->%Z.eqb_eq. by eexists.
Qed.

(** C9, as the code has it: two visible (not hidden) regular files whose
    names split into the same base name and two allow-listed extensions are
    both converted to the one output path [join mp3_folder (base + ".mp3")]
    and through the one intermediate path, that output path followed by
    [.temp.wav]: for either file the decoder is told to write that
    intermediate path, [lame] to read it and to write that output path, and
    the removal is of that intermediate path.  Nothing looks whether the
    output is there already: with [song.ogg] and [song.m4a] in one folder,
    both conversions run in full, on the same two paths, and [song.mp3] ends
    up holding the file that was enumerated last. *)
Theorem same_base_name_same_output mp3_folder e1 e2 base ext1 ext2 :
  visible_file e1 = true → visible_file e2 = true →
  splitext (name e1) = (base, ext1) → splitext (name e2) = (base, ext2) →
  ext1 ∈ extensions → ext2 ∈ extensions →
  let output := join mp3_folder (base +:+ ".mp3") in
  let temp := output +:+ ".temp.wav" in
  let encode := ["lame"; "-h"; "-b"; "128"; temp; output] in
  (∀ entry st, entry = e1 ∨ entry = e2 →
     scan_entry run_tool mp3_folder entry st =
       convert_audio run_tool (path entry) output st ∧
     trace (snd (scan_entry run_tool mp3_folder entry st)) =
       trace st ++ conversion_calls run_tool (path entry) output (fs st) ∧
     ∀ sniffed m1,
       run_tool ["file"; "-b"; path entry] (fs st) = (Ok sniffed, m1) →
       matches_any (stdout sniffed) decoder_signatures = true →
       let decode := decoder_argv (select (stdout sniffed)) (path entry) temp in
       written (EvRun decode (fst (run_tool decode m1))) = [temp] ∧
       ∃ rest,
         trace (snd (scan_entry run_tool mp3_folder entry st)) =
           trace st ++ EvRun ["file"; "-b"; path entry] (Ok sniffed)
                       :: EvRun decode (fst (run_tool decode m1)) :: rest ∧
         (∀ decoded, fst (run_tool decode m1) = Ok decoded → returncode decoded = 0 →
            ∃ rest',
              rest = EvRun encode (fst (run_tool encode (snd (run_tool decode m1))))
                     :: rest' ∧
              (∀ encoded,
                 fst (run_tool encode (snd (run_tool decode m1))) = Ok encoded →
                 returncode encoded = 0 →
                 ∃ rest'', rest' = EvRemove temp :: rest''))) ∧
  (let r := main (Mock.tools []) "/music" (Mock.boot (Mock.songs ["song.ogg"; "song.m4a"])) in
   let out := "/music/converted_to_mp3" in
   fst r = Ok tt ∧
   fs (snd r) !! (out +:+ "/song.mp3") = Some (File "MP3(WAV(ftypM4A from-m4a))") ∧
   fs (snd r) !! out = Some (Dir ["song.mp3"]) ∧
   trace (snd r) =
     [EvPrint "Converting all audios in /music: Saving MP3 files to /music/converted_to_mp3";
      EvMakedirs out;
      EvRun ["file"; "-b"; "/music/song.ogg"]
        (Mock.completed 0 "Ogg data, Vorbis audio, stereo, 44100 Hz, ~128000 bps" "");
      EvRun ["oggdec"; "/music/song.ogg"; "-o"; out +:+ "/song.mp3.temp.wav"]
        (Mock.completed 0 "" "");
      EvRun ["lame"; "-h"; "-b"; "128"; out +:+ "/song.mp3.temp.wav"; out +:+ "/song.mp3"]
        (Mock.completed 0 "" "");
      EvRemove (out +:+ "/song.mp3.temp.wav");
      EvPrint "Successfully saved /music/converted_to_mp3/song.mp3";
      EvRun ["file"; "-b"; "/music/song.m4a"]
        (Mock.completed 0 "ISO Media, Apple iTunes ALAC/AAC-LC (.M4A) Audio" "");
      EvRun ["ffmpeg"; "-y"; "-i"; "/music/song.m4a"; out +:+ "/song.mp3.temp.wav"]
        (Mock.completed 0 "" "");
      EvRun ["lame"; "-h"; "-b"; "128"; out +:+ "/song.mp3.temp.wav"; out +:+ "/song.mp3"]
        (Mock.completed 0 "" "");
      EvRemove (out +:+ "/song.mp3.temp.wav");
      EvPrint "Successfully saved /music/converted_to_mp3/song.mp3"]) ∧
  (let r := main (Mock.tools []) "/music" (Mock.boot (Mock.songs ["song.m4a"; "song.ogg"])) in
   fst r = Ok tt ∧
   fs (snd r) !! "/music/converted_to_mp3/song.mp3" = Some (File "MP3(WAV(OggS/vorbis from-ogg))") ∧
   fs (snd r) !! "/music/converted_to_mp3" = Some (Dir ["song.mp3"]) ∧
   encoder_runs (trace (snd r)) = 2%nat).
Proof.
  intros Hv1 Hv2 Hs1 Hs2 Hx1 Hx2 output temp encode.
  split; [| split; by vm_compute].
  intros entry st Hentry.
  assert (scan_entry run_tool mp3_folder entry st =
          convert_audio run_tool (path entry) output st) as Hscan.
  { destruct Hentry as [-> | ->].
    - rewrite scan_entry_allowed; rewrite ?Hs1; done.
    - rewrite scan_entry_allowed; rewrite ?Hs2; done. }
  split; [done |]. rewrite Hscan, convert_audio_calls. split; [done |].
  intros sniffed m1 Hrun Hsig decode.
  destruct (conversion_calls_decoding (path entry) output (fs st) sniffed m1 Hrun Hsig)
    as (Hw & rest & Hcalls & Hnext).
  split; [done |]. exists rest. by rewrite Hcalls.
Qed.

(** *** The output folder *)

Lemma makedirs_fresh (m : FS) d n names :
  tidy_dir d → plain_name n → n ≠ "" →
  m !! join d n = None → m !! d = Some (Dir names) →
  makedirs (join d n) m =
    Ok (<[join d n := Dir []]> (<[d := Dir (link names (join d n))]> m)).
Proof.
  intros Hd Hn Hne Hfree Hdir. unfold makedirs.
  destruct (String.length (join d n)) as [|depth];
    cbn [makedirs_rec]; rewrite (split_join d n Hd Hn);
    (destruct n as [|x n]; [done |]); cbn [is_empty];
    unfold exists_; rewrite Hdir; rewrite andb_false_r;
    unfold mkdir, create; rewrite Hfree, (dirname_join d _ Hd Hn), Hdir; done.
Qed.

Lemma main_eq args_folder st :
  main run_tool args_folder st =
    let folder := abspath (cwd st) args_folder in
    let mp3_folder := join folder "converted_to_mp3" in
    let scan := λ st1,
      match scandir folder (fs st1) with
      | Ok item => for_each item (scan_entry run_tool mp3_folder) st1
      | Raise e => (Raise e, st1)
      end in
    let st0 := emit (EvPrint ("Converting all audios in " +:+ folder
                              +:+ ": Saving MP3 files to " +:+ mp3_folder)) st in
    if isdir (fs st) mp3_folder then scan st0
    else match makedirs mp3_folder (fs st) with
         | Ok m => scan (with_fs m (emit (EvMakedirs mp3_folder) st0))
         | Raise e => (Raise e, emit (EvMakedirs mp3_folder) st0)
         end.
Proof.
  unfold main. rewrite bind_eq. unfold os_path_abspath. cbv beta iota zeta.
  rewrite bind_eq. unfold print at 1. cbv beta iota.
  rewrite bind_eq. unfold os_path_isdir at 1. cbv beta iota.
  change (fs (emit _ st)) with (fs st).
  destruct (isdir (fs st) _); cbn [negb].
  - rewrite bind_eq. unfold mret, M_ret. cbv beta iota.
    rewrite bind_eq. unfold os_scandir. done.
  - rewrite bind_eq. unfold os_makedirs, fs_call.
    change (fs (emit _ (emit _ st))) with (fs st).
    destruct (makedirs _ (fs st)); [| done].
    rewrite bind_eq. unfold os_scandir. done.
Qed.

(** *** The paths a conversion names *)

Lemma written_decoder b input temp o :
  is_decoding b = true → written (EvRun (decoder_argv b input temp) o) = [temp].
Proof. by destruct b. Qed.

Lemma branch_body_writes b input output audio_type st1 :
  ∃ delta,
    trace (snd (branch_body run_tool b input output audio_type st1)) = trace st1 ++ delta ∧
    Forall (λ e, ∀ p, p ∈ written e → p = output ∨ p = output +:+ ".temp.wav") delta.
Proof.
  destruct (is_decoding b) eqn:Hb.
  - rewrite decoding_body_eq by done. cbv zeta.
    set (temp := output +:+ ".temp.wav").
    assert (∀ o p, p ∈ written (EvRun (decoder_argv b input temp) o) →
                   p = output ∨ p = temp) as Hdec.
    { intros o p. rewrite written_decoder by done.
      intros ->%list_elem_of_singleton. by right. }
    destruct (run_tool (decoder_argv b input temp) (fs st1)) as [[cp|e] m2].
    + destruct (returncode cp =? 0).
      * destruct (convert_to_mp3_trace temp output
                    (with_fs m2 (emit (EvRun (decoder_argv b input temp) (Ok cp)) st1)))
          as (rest & Htr & Hquiet).
        eexists (EvRun (decoder_argv b input temp) (Ok cp) :: EvRun _ _ :: rest).
        split.
        { destruct (convert_to_mp3 _ _ _ _) as [[ok|x] st3]; cbn [snd] in *;
            rewrite Htr; cbn [trace with_fs emit fs]; by rewrite <- !app_assoc. }
        apply Forall_cons; split; [apply Hdec |].
        apply Forall_cons; split.
        { intros p ->%list_elem_of_singleton. by left. }
        eapply Forall_impl; [exact Hquiet |].
        intros e [-> | [line ->]] p.
        -- intros ->%list_elem_of_singleton. by right.
        -- by intros ?%elem_of_nil.
      * exists [EvRun (decoder_argv b input temp) (Ok cp);
                EvPrint (decode_failure b input cp)].
        split; [cbn [snd trace with_fs emit fs]; by rewrite <- !app_assoc |].
        apply Forall_cons; split; [apply Hdec |].
        apply Forall_cons; split; [by intros p ?%elem_of_nil | apply Forall_nil_2].
    + exists [EvRun (decoder_argv b input temp) (Raise e)].
      split; [done |].
      apply Forall_cons; split; [apply Hdec | apply Forall_nil_2].
  - destruct b; try done.
    + rewrite copy_body_eq. cbv zeta.
      exists [EvPrint (already_mp3 input); EvCopy input output].
      split.
      { destruct (copy input output (fs st1)); cbn [snd trace with_fs emit fs];
          by rewrite <- !app_assoc. }
      apply Forall_cons; split; [by intros p ?%elem_of_nil |].
      apply Forall_cons; split; [| apply Forall_nil_2].
      intros p ->%list_elem_of_singleton. by left.
    + rewrite skip_body_eq. exists [EvPrint (unidentified audio_type input)].
      split; [done |].
      apply Forall_cons; split; [by intros p ?%elem_of_nil | apply Forall_nil_2].
Qed.

Lemma convert_audio_writes input output st :
  ∃ delta,
    trace (snd (convert_audio run_tool input output st)) = trace st ++ delta ∧
    Forall (λ e, ∀ p, p ∈ written e → p = output ∨ p = output +:+ ".temp.wav") delta.
Proof.
  rewrite convert_audio_eq.
  destruct (run_tool ["file"; "-b"; input] (fs st)) as [[sniffed|e] m1]; cbv zeta.
  - destruct (branch_body_writes (select (stdout sniffed)) input output (stdout sniffed)
                (with_fs m1 (emit (EvRun ["file"; "-b"; input] (Ok sniffed)) st)))
      as (delta & Htr & Hw).
    exists (EvRun ["file"; "-b"; input] (Ok sniffed) :: delta).
    split; [rewrite Htr; cbn [trace with_fs emit]; by rewrite <- app_assoc |].
    apply Forall_cons; split; [by intros p ?%elem_of_nil | done].
  - exists [EvRun ["file"; "-b"; input] (Raise e)].
    split; [done |].
    apply Forall_cons; split; [by intros p ?%elem_of_nil | apply Forall_nil_2].
Qed.

(** Every path the scan of [item] names for writing is the output path or the
    intermediate path of one of its allow-listed entries. *)
Lemma scan_writes mp3_folder item st :
  mp3_folder ≠ "" → endswith_char mp3_folder sep = false →
  Forall (λ entry, plain_name (name entry)) item →
  ∃ delta,
    trace (snd (for_each item (scan_entry run_tool mp3_folder) st)) = trace st ++ delta ∧
    Forall (λ e, ∀ p, p ∈ written e →
              ∃ entry base ext,
                entry ∈ item ∧ visible_file entry = true ∧
                name entry = base +:+ ext ∧ ext ∈ extensions ∧
                let output := mp3_folder +:+ "/" +:+ base +:+ ".mp3" in
                p = output ∨ p = output +:+ ".temp.wav") delta.
Proof.
  intros Hne Hend Hplain. revert st.
  induction Hplain as [|entry item Hentry _ IH]; intros st.
  - exists []. split; [simpl; by rewrite app_nil_r | apply Forall_nil_2].
  - rewrite for_each_cons.
    assert (∃ delta1,
      trace (snd (scan_entry run_tool mp3_folder entry st)) = trace st ++ delta1 ∧
      Forall (λ e, ∀ p, p ∈ written e →
                ∃ base ext, visible_file entry = true ∧
                  name entry = base +:+ ext ∧ ext ∈ extensions ∧
                  let output := mp3_folder +:+ "/" +:+ base +:+ ".mp3" in
                  p = output ∨ p = output +:+ ".temp.wav") delta1) as (delta1 & Htr1 & Hw1).
    { destruct (visible_file entry) eqn:Hvis.
      - destruct (decide ((splitext (name entry)).2 ∈ extensions)) as [Hext|Hext].
        + rewrite scan_entry_allowed by done.
          destruct (splitext (name entry)) as [base ext] eqn:Hsplit. cbn [fst snd] in *.
          pose proof (splitext_app _ _ _ Hsplit) as Hname.
          assert (plain_name (base +:+ ".mp3")) as Hbase.
          { unfold plain_name in *. rewrite <- Hname in Hentry.
            apply rfind_app_none in Hentry as [Hb _]. by apply rfind_app_none. }
          rewrite (join_under _ _ Hne Hend Hbase).
          destruct (convert_audio_writes (path entry)
                      (mp3_folder +:+ "/" +:+ base +:+ ".mp3") st) as (delta1 & Htr & Hw).
          exists delta1. split; [done |].
          eapply Forall_impl; [exact Hw |]. intros e He p Hp.
          exists base, ext. by repeat (split; [done |]); apply He.
        + rewrite scan_entry_other_extension by done.
          eexists [EvPrint _]. split; [done |].
          apply Forall_cons; split; [by intros p ?%elem_of_nil | apply Forall_nil_2].
      - rewrite scan_entry_filtered by done.
        exists []. split; [simpl; by rewrite app_nil_r | apply Forall_nil_2]. }
    assert (Forall (λ e, ∀ p, p ∈ written e →
              ∃ entry0 base ext,
                entry0 ∈ entry :: item ∧ visible_file entry0 = true ∧
                name entry0 = base +:+ ext ∧ ext ∈ extensions ∧
                let output := mp3_folder +:+ "/" +:+ base +:+ ".mp3" in
                p = output ∨ p = output +:+ ".temp.wav") delta1) as Hw1'.
    { eapply Forall_impl; [exact Hw1 |]. intros e He p Hp.
      destruct (He p Hp) as (base & ext & H). exists entry, base, ext.
      split; [apply list_elem_of_here | done]. }
    destruct (scan_entry run_tool mp3_folder entry st) as [[[]|x] st'] eqn:Hscan;
      cbn [snd] in Htr1.
    + destruct (IH st') as (delta2 & Htr2 & Hw2).
      exists (delta1 ++ delta2).
      split; [by rewrite Htr2, Htr1, app_assoc |].
      apply Forall_app; split; [done |].
      eapply Forall_impl; [exact Hw2 |]. intros e He p Hp.
      destruct (He p Hp) as (entry0 & base & ext & Hin & H).
      exists entry0, base, ext. split; [by apply list_elem_of_further | done].
    + exists delta1. by split.
Qed.

(** C7: with [F] the absolute folder and [F/converted_to_mp3] the output
    folder.  The output folder lies directly in [F].  When it is a directory
    already, [main] goes straight to the scan: nothing is created and the
    file system is untouched.  When [F] is a directory and nothing exists at
    the output folder's path, [os.makedirs] creates it, empty, and the scan
    follows.  During the scan of entries with plain names, every path a call
    names for writing or deleting is [F/converted_to_mp3/<base>.mp3] or that
    path followed by [.temp.wav], for an allow-listed entry [<base><ext>].
    And entry by entry: the scan of a visible regular file [<base><ext>] with
    an allow-listed extension is the conversion of its path to the output
    path [F/converted_to_mp3/<base>.mp3], and its calls are exactly those of
    that conversion; in a conversion to [output] the decoder is told to write
    [output.temp.wav], [lame] to read [output.temp.wav] and write [output],
    the removal is of [output.temp.wav], and the copy of an MP3 goes to
    [output]. *)
Theorem output_folder_layout args_folder st :
  let folder := abspath (cwd st) args_folder in
  let mp3_folder := join folder "converted_to_mp3" in
  let banner := EvPrint ("Converting all audios in " +:+ folder
                         +:+ ": Saving MP3 files to " +:+ mp3_folder) in
  let scan := λ st1,
    match scandir folder (fs st1) with
    | Ok item => for_each item (scan_entry run_tool mp3_folder) st1
    | Raise e => (Raise e, st1)
    end in
  dirname mp3_folder = folder ∧ basename mp3_folder = "converted_to_mp3" ∧
  (isdir (fs st) mp3_folder = true →
     main run_tool args_folder st = scan (emit banner st)) ∧
  (∀ names, fs st !! folder = Some (Dir names) → fs st !! mp3_folder = None →
     let m := <[mp3_folder := Dir []]>
                (<[folder := Dir (link names mp3_folder)]> (fs st)) in
     makedirs mp3_folder (fs st) = Ok m ∧
     m !! mp3_folder = Some (Dir []) ∧
     main run_tool args_folder st =
       scan (with_fs m (emit (EvMakedirs mp3_folder) (emit banner st)))) ∧
  (∀ item st1,
     Forall (λ entry, plain_name (name entry)) item →
     ∃ delta,
       trace (snd (for_each item (scan_entry run_tool mp3_folder) st1)) =
         trace st1 ++ delta ∧
       Forall (λ e, ∀ p, p ∈ written e →
                 ∃ entry base ext,
                   entry ∈ item ∧ visible_file entry = true ∧
                   name entry = base +:+ ext ∧ ext ∈ extensions ∧
                   let output := mp3_folder +:+ "/" +:+ base +:+ ".mp3" in
                   p = output ∨ p = output +:+ ".temp.wav") delta) ∧
  (∀ entry st1,
     plain_name (name entry) → visible_file entry = true →
     (splitext (name entry)).2 ∈ extensions →
     let base := (splitext (name entry)).1 in
     let output := mp3_folder +:+ "/" +:+ base +:+ ".mp3" in
     name entry = base +:+ (splitext (name entry)).2 ∧
     scan_entry run_tool mp3_folder entry st1 =
       convert_audio run_tool (path entry) output st1 ∧
     trace (snd (scan_entry run_tool mp3_folder entry st1)) =
       trace st1 ++ conversion_calls run_tool (path entry) output (fs st1)) ∧
  (∀ input output st1,
     let temp := output +:+ ".temp.wav" in
     let encode := ["lame"; "-h"; "-b"; "128"; temp; output] in
     trace (snd (convert_audio run_tool input output st1)) =
       trace st1 ++ conversion_calls run_tool input output (fs st1) ∧
     ∀ sniffed m1,
       run_tool ["file"; "-b"; input] (fs st1) = (Ok sniffed, m1) →
       (matches_any (stdout sniffed) decoder_signatures = true →
        let decode := decoder_argv (select (stdout sniffed)) input temp in
        written (EvRun decode (fst (run_tool decode m1))) = [temp] ∧
        ∃ rest,
          conversion_calls run_tool input output (fs st1) =
            EvRun ["file"; "-b"; input] (Ok sniffed)
            :: EvRun decode (fst (run_tool decode m1)) :: rest ∧
          (∀ decoded, fst (run_tool decode m1) = Ok decoded → returncode decoded = 0 →
             ∃ rest',
               rest = EvRun encode (fst (run_tool encode (snd (run_tool decode m1))))
                      :: rest' ∧
               (∀ encoded,
                  fst (run_tool encode (snd (run_tool decode m1))) = Ok encoded →
                  returncode encoded = 0 →
                  ∃ rest'', rest' = EvRemove temp :: rest''))) ∧
       (startswith (stdout sniffed) "MPEG ADTS, layer III" = true →
        conversion_calls run_tool input output (fs st1) =
          [EvRun ["file"; "-b"; input] (Ok sniffed);
           EvPrint (already_mp3 input);
           EvCopy input output])).
Proof.
  intros folder mp3_folder banner scan.
  assert (tidy_dir folder) as Htidy by apply abspath_tidy.
  assert (plain_name "converted_to_mp3") as Hplain by reflexivity.
  destruct (join_no_trailing_sep folder "converted_to_mp3" Htidy Hplain ltac:(done))
    as [Hne Hend].
  split; [by apply dirname_join |]. split; [by apply basename_join |].
  split; [| split; [| split; [| split]]].
  - intros Hdir. rewrite main_eq. cbv zeta. fold folder. fold mp3_folder.
    by rewrite Hdir.
  - intros names Hfolder Hfree m.
    assert (makedirs mp3_folder (fs st) = Ok m) as Hmk
      by by apply makedirs_fresh.
    split; [done |]. split; [apply lookup_insert_eq |].
    rewrite main_eq. cbv zeta. fold folder. fold mp3_folder.
    unfold isdir. by rewrite Hfree, Hmk.
  - intros item st1 Hitem. by apply scan_writes.
  - intros entry st1 Hname Hvis Hext base output.
    destruct (splitext (name entry)) as [base0 ext] eqn:Hsplit.
    cbn [fst snd] in *. subst base.
    pose proof (splitext_app _ _ _ Hsplit) as Happ.
    assert (plain_name (base0 +:+ ".mp3")) as Hbase.
    { unfold plain_name in *. rewrite <- Happ in Hname.
      apply rfind_app_none in Hname as [Hb _]. by apply rfind_app_none. }
    assert (scan_entry run_tool mp3_folder entry st1 =
            convert_audio run_tool (path entry) output st1) as Hscan.
    { rewrite scan_entry_allowed; rewrite ?Hsplit; [| done..]. cbn [fst].
      by rewrite (join_under mp3_folder _ Hne Hend Hbase). }
    split; [done |]. split; [done |].
    by rewrite Hscan, convert_audio_calls.
  - intros input output st1 temp encode.
    split; [apply convert_audio_calls |].
    intros sniffed m1 Hrun. split.
    + intros Hsig. by apply conversion_calls_decoding.
    + intros Hsig. unfold conversion_calls. rewrite Hrun.
      by rewrite (select_mp3 _ Hsig).
Qed.
End WithTools.

(** C10: the branch is read off the sniffed text alone.  Two conversions,
    of any two files, to any two outputs, in any two states and even with
    different tools, whose sniffs print the same text show the same branch.
    So a visible regular file [x.ogg] that sniffs as [MPEG ADTS, layer III]
    is not decoded: after the sniff it is announced as MP3 and copied to
    [x.mp3] in the output folder. *)
Theorem branch_follows_sniffed_text
    (tools1 tools2 : list string → FS → result CompletedProcess * FS)
    input1 output1 st1 sniffed1 m1 input2 output2 st2 sniffed2 m2 :
  tools1 ["file"; "-b"; input1] (fs st1) = (Ok sniffed1, m1) →
  tools2 ["file"; "-b"; input2] (fs st2) = (Ok sniffed2, m2) →
  stdout sniffed1 = stdout sniffed2 →
  (∃ delta1 delta2 b,
     trace (snd (convert_audio tools1 input1 output1 st1)) =
       trace st1 ++ EvRun ["file"; "-b"; input1] (Ok sniffed1) :: delta1 ∧
     trace (snd (convert_audio tools2 input2 output2 st2)) =
       trace st2 ++ EvRun ["file"; "-b"; input2] (Ok sniffed2) :: delta2 ∧
     fired delta1 = [b] ∧ fired delta2 = [b]) ∧
  (∀ mp3_folder,
     input1 = join "/music" "x.ogg" →
     startswith (stdout sniffed1) "MPEG ADTS, layer III" = true →
     trace (snd (scan_entry tools1 mp3_folder
                   {| name := "x.ogg"; path := input1; is_file := true |} st1)) =
       trace st1 ++
         [EvRun ["file"; "-b"; input1] (Ok sniffed1);
          EvPrint (input1 +:+ " is already in MP3 format: No converting necessary, copying into output folder.");
          EvCopy input1 (join mp3_folder "x.mp3")]).
Proof.
  intros Hrun1 Hrun2 Hsame. split.
  - destruct (convert_audio_fired tools1 input1 output1 st1 sniffed1 m1 Hrun1)
      as (delta1 & Htr1 & Hf1).
    destruct (convert_audio_fired tools2 input2 output2 st2 sniffed2 m2 Hrun2)
      as (delta2 & Htr2 & Hf2).
    exists delta1, delta2, (select (stdout sniffed1)).
    repeat split; try done. by rewrite Hsame.
  - intros mp3_folder _ Hsig.
    rewrite scan_entry_allowed;
      [| done | by vm_compute; apply (list_elem_of_here ".ogg")].
    change ((splitext (name {| name := "x.ogg"; path := input1; is_file := true |})).1
            +:+ ".mp3") with "x.mp3".
    cbn [path].
    rewrite convert_audio_eq, Hrun1. cbv beta iota zeta.
    rewrite (select_mp3 _ Hsig), copy_body_eq. cbv zeta.
    destruct (copy _ _ _); cbn [snd trace with_fs emit fs]; by rewrite <- !app_assoc.
Qed.

(** *** The scenario folder: [a.mp3], [b.ogg], [c.m4a], [d.txt] *)

(** C1, as the code has it: a regular file [a.mp3] never reaches the
    dispatcher, whatever the tools: [.mp3] is not an allow-listed extension,
    so the entry only gets the message [Skipping a.mp3].  In the scenario
    folder, with tools that succeed, the run ends normally, [b.mp3] and
    [c.mp3] are produced from [b.ogg] and [c.m4a], no intermediate file is
    left, and there is no [a.mp3] and nothing for [d.txt] in the output
    folder; the trace shows the two conversions and the two skips. *)
Theorem scenario_mp3_extension_is_skipped :
  (∀ run_tool mp3_folder p st,
     scan_entry run_tool mp3_folder {| name := "a.mp3"; path := p; is_file := true |} st =
       (Ok tt, emit (EvPrint "Skipping a.mp3") st)) ∧
  let r := main (Mock.tools []) "music" (Mock.boot Mock.music) in
  let out := "/music/converted_to_mp3" in
  fst r = Ok tt ∧
  fs (snd r) !! (out +:+ "/a.mp3") = None ∧
  fs (snd r) !! (out +:+ "/b.mp3") = Some (File "MP3(WAV(OggS/vorbis bbbb))") ∧
  fs (snd r) !! (out +:+ "/c.mp3") = Some (File "MP3(WAV(ftypM4A cccc))") ∧
  fs (snd r) !! out = Some (Dir ["b.mp3"; "c.mp3"]) ∧
  trace (snd r) =
    [EvPrint "Converting all audios in /music: Saving MP3 files to /music/converted_to_mp3";
     EvMakedirs out;
     EvPrint "Skipping a.mp3";
     EvRun ["file"; "-b"; "/music/b.ogg"]
       (Mock.completed 0 "Ogg data, Vorbis audio, stereo, 44100 Hz, ~128000 bps" "");
     EvRun ["oggdec"; "/music/b.ogg"; "-o"; out +:+ "/b.mp3.temp.wav"]
       (Mock.completed 0 "" "");
     EvRun ["lame"; "-h"; "-b"; "128"; out +:+ "/b.mp3.temp.wav"; out +:+ "/b.mp3"]
       (Mock.completed 0 "" "");
     EvRemove (out +:+ "/b.mp3.temp.wav");
     EvPrint "Successfully saved /music/converted_to_mp3/b.mp3";
     EvRun ["file"; "-b"; "/music/c.m4a"]
       (Mock.completed 0 "ISO Media, Apple iTunes ALAC/AAC-LC (.M4A) Audio" "");
     EvRun ["ffmpeg"; "-y"; "-i"; "/music/c.m4a"; out +:+ "/c.mp3.temp.wav"]
       (Mock.completed 0 "" "");
     EvRun ["lame"; "-h"; "-b"; "128"; out +:+ "/c.mp3.temp.wav"; out +:+ "/c.mp3"]
       (Mock.completed 0 "" "");
     EvRemove (out +:+ "/c.mp3.temp.wav");
     EvPrint "Successfully saved /music/converted_to_mp3/c.mp3";
     EvPrint "Skipping d.txt"].
Proof.
  split.
  - intros run_tool mp3_folder p st. apply scan_entry_other_extension; [done |].
    cbn [name]. change (splitext "a.mp3") with ("a", ".mp3"). cbn [snd].
    unfold extensions. rewrite !elem_of_cons, elem_of_nil.
    intros H. repeat (destruct H as [H|H]; [discriminate |]). done.
  - by vm_compute.
Qed.

(** The scenario as it was expected fails on [a.mp3]: the run leaves no
    [a.mp3] in the output folder. *)
Lemma scenario_expected_fails :
  ¬ Mock.scenario_expected (fs (snd (main (Mock.tools []) "music" (Mock.boot Mock.music)))).
Proof. intros (H & _). by vm_compute in H. Qed.

(** Two hidden regular files with one base name and two allow-listed
    extensions get no output path: they never reach the dispatcher. *)
Lemma hidden_pair_derives_no_output :
  ¬ same_base_same_output (Mock.tools []) "/music/converted_to_mp3"
      {| name := ".song.ogg"; path := "/music/.song.ogg"; is_file := true |}
      {| name := ".song.m4a"; path := "/music/.song.m4a"; is_file := true |}
      (Mock.boot Mock.music).
Proof.
  intros H.
  destruct (H ".song" ".ogg" ".m4a" eq_refl eq_refl eq_refl eq_refl
              (list_elem_of_here _ _)
              (list_elem_of_further _ _ _ (list_elem_of_here _ _))
              ltac:(discriminate)) as [H1 _].
  unfold derives_output in H1. rewrite scan_entry_filtered in H1 by done.
  apply (f_equal (λ r, trace (snd r))) in H1.
  rewrite convert_audio_calls in H1. by vm_compute in H1.
Qed.

(** A hidden regular file is passed over without the message: it is not
    "skipped and logged". *)
Lemma hidden_entry_is_not_logged :
  ¬ skipped_and_logged (Mock.tools []) "/music/converted_to_mp3"
      {| name := ".cover.ogg"; path := "/music/.cover.ogg"; is_file := true |}
      (Mock.boot Mock.music).
Proof.
  unfold skipped_and_logged. rewrite scan_entry_filtered by done.
  intros H. by injection H.
Qed.

(** *** The statements at work in the scenario world *)


Lemma decoder_then_encoder_witness :
  ∃ rest,
    trace (snd (convert_audio (Mock.tools ["oggdec"]) "/music/b.ogg"
                  "/music/converted_to_mp3/b.mp3" (Mock.boot Mock.music))) =
      [] ++ [EvRun ["file"; "-b"; "/music/b.ogg"]
               (Mock.completed 0 "Ogg data, Vorbis audio, stereo, 44100 Hz, ~128000 bps" "");
             EvRun ["oggdec"; "/music/b.ogg"; "-o"; "/music/converted_to_mp3/b.mp3.temp.wav"]
               (Mock.completed 1 "" "oggdec: failed")] ++ rest ∧
    encoder_runs rest = 0%nat.
Proof.
  destruct (decoder_then_encoder (Mock.tools ["oggdec"]) "/music/b.ogg"
              "/music/converted_to_mp3/b.mp3" (Mock.boot Mock.music)
              {| returncode := 0;
                 stdout := "Ogg data, Vorbis audio, stereo, 44100 Hz, ~128000 bps";
                 stderr := "" |}
              Mock.music eq_refl eq_refl)
    as (_ & rest & Htr & _ & _ & Hfail).
  exists rest. split; [exact Htr |].
  destruct (Hfail {| returncode := 1; stdout := ""; stderr := "oggdec: failed" |}
              eq_refl ltac:(discriminate)) as (_ & -> & _).
  reflexivity.
Defined.

Lemma convert_to_mp3_contract_witness :
  fst (convert_to_mp3 (Mock.tools []) "/music/d.txt" "/music/d.mp3" (Mock.boot Mock.music))
    = Ok true ∧
  fst (convert_to_mp3 (Mock.tools ["lame"]) "/music/d.txt" "/music/d.mp3"
         (Mock.boot Mock.music)) = Ok false.
Proof.
  split.
  - destruct (convert_to_mp3_contract (Mock.tools []) "/music/d.txt" "/music/d.mp3"
                (Mock.boot Mock.music)) as (_ & Hok & _).
    destruct (Hok {| returncode := 0; stdout := ""; stderr := "" |}
                eq_refl eq_refl eq_refl) as (H & _).
    exact H.
  - destruct (convert_to_mp3_contract (Mock.tools ["lame"]) "/music/d.txt" "/music/d.mp3"
                (Mock.boot Mock.music)) as (_ & _ & Hfail).
    destruct (Hfail {| returncode := 1; stdout := ""; stderr := "lame: failed" |}
                eq_refl ltac:(discriminate)) as (H & _).
    exact H.
Defined.

Lemma filtered_entries_start_nothing_witness :
  scan_entry (Mock.tools []) "/music/converted_to_mp3"
    {| name := "converted_to_mp3"; path := "/music/converted_to_mp3"; is_file := false |}
    (Mock.boot Mock.music) = (Ok tt, Mock.boot Mock.music) ∧
  scan_entry (Mock.tools []) "/music/converted_to_mp3"
    {| name := "d.txt"; path := "/music/d.txt"; is_file := true |}
    (Mock.boot Mock.music) =
    (Ok tt, {| fs := Mock.music; cwd := "/"; trace := [] ++ [EvPrint "Skipping d.txt"] |}).
Proof.
  split.
  - apply (filtered_entries_start_nothing (Mock.tools [])). right. reflexivity.
  - apply (filtered_entries_start_nothing (Mock.tools []) "/music/converted_to_mp3"
             {| name := "d.txt"; path := "/music/d.txt"; is_file := true |}
             (Mock.boot Mock.music)); [reflexivity | reflexivity |].
    cbn [name]. change (splitext "d.txt") with ("d", ".txt"). cbn [snd].
    unfold extensions. rewrite !elem_of_cons, elem_of_nil.
    intros H. repeat (destruct H as [H|H]; [discriminate |]). exact H.
Defined.

Lemma mp3_is_copied_witness :
  fs (snd (convert_audio (Mock.tools []) "/music/a.mp3" "/music/copy.mp3"
             (Mock.boot Mock.music))) !! "/music/copy.mp3" = Some (File "ADTS/mp3 aaaa").
Proof.
  destruct (mp3_is_copied (Mock.tools []) "/music/a.mp3" "/music/copy.mp3"
              (Mock.boot Mock.music)
              {| returncode := 0;
                 stdout := "MPEG ADTS, layer III, v1, 128 kbps, 44.1 kHz, JntStereo";
                 stderr := "" |}
              Mock.music eq_refl eq_refl) as (_ & _ & _ & _ & Hcopy).
  destruct (Hcopy "ADTS/mp3 aaaa" eq_refl eq_refl ltac:(discriminate)
              (or_intror eq_refl)) as (_ & H & _).
  exact H.
Defined.

Lemma output_folder_layout_witness :
  dirname (join (abspath "/" "music") "converted_to_mp3") = abspath "/" "music" ∧
  makedirs "/music/converted_to_mp3" Mock.music =
    Ok (<["/music/converted_to_mp3" := Dir []]>
          (<["/music" := Dir ["a.mp3"; "b.ogg"; "c.m4a"; "d.txt"; "converted_to_mp3"]]>
             Mock.music)) ∧
  scan_entry (Mock.tools []) "/music/converted_to_mp3"
    {| name := "b.ogg"; path := "/music/b.ogg"; is_file := true |} (Mock.boot Mock.music) =
  convert_audio (Mock.tools []) "/music/b.ogg" "/music/converted_to_mp3/b.mp3"
    (Mock.boot Mock.music) ∧
  written (EvRun ["oggdec"; "/music/b.ogg"; "-o"; "/music/converted_to_mp3/b.mp3.temp.wav"]
             (Mock.completed 1 "" "cannot write /music/converted_to_mp3/b.mp3.temp.wav"))
    = ["/music/converted_to_mp3/b.mp3.temp.wav"].
Proof.
  destruct (output_folder_layout (Mock.tools []) "music" (Mock.boot Mock.music))
    as (Hdir & _ & _ & Hcreate & _ & Hentry & Hcalls).
  split; [exact Hdir |].
  destruct (Hcreate ["a.mp3"; "b.ogg"; "c.m4a"; "d.txt"] eq_refl eq_refl) as (H & _).
  split; [exact H |].
  destruct (Hentry {| name := "b.ogg"; path := "/music/b.ogg"; is_file := true |}
              (Mock.boot Mock.music) eq_refl eq_refl
              (list_elem_of_here _ _)) as (_ & Hscan & _).
  split; [exact Hscan |].
  destruct (Hcalls "/music/b.ogg" "/music/converted_to_mp3/b.mp3" (Mock.boot Mock.music))
    as (_ & Hpaths).
  destruct (Hpaths {| returncode := 0;
                      stdout := "Ogg data, Vorbis audio, stereo, 44100 Hz, ~128000 bps";
                      stderr := "" |} Mock.music eq_refl) as (Hdec & _).
  exact (proj1 (Hdec eq_refl)).
Defined.

Lemma unidentified_type_is_skipped_witness :
  fst (convert_audio (Mock.tools []) "/music/d.txt" "/music/converted_to_mp3/d.mp3"
         (Mock.boot Mock.music)) = Ok tt.
Proof.
  rewrite (unidentified_type_is_skipped (Mock.tools []) "/music/d.txt"
             "/music/converted_to_mp3/d.mp3" (Mock.boot Mock.music)
             {| returncode := 0; stdout := "data"; stderr := "" |} Mock.music
             eq_refl eq_refl).
  reflexivity.
Defined.

Lemma same_base_name_same_output_witness :
  scan_entry (Mock.tools []) "/music/converted_to_mp3"
    {| name := "song.ogg"; path := "/music/song.ogg"; is_file := true |}
    (Mock.boot (Mock.songs ["song.ogg"; "song.m4a"])) =
  convert_audio (Mock.tools []) "/music/song.ogg" "/music/converted_to_mp3/song.mp3"
    (Mock.boot (Mock.songs ["song.ogg"; "song.m4a"])) ∧
  scan_entry (Mock.tools []) "/music/converted_to_mp3"
    {| name := "song.m4a"; path := "/music/song.m4a"; is_file := true |}
    (Mock.boot (Mock.songs ["song.ogg"; "song.m4a"])) =
  convert_audio (Mock.tools []) "/music/song.m4a" "/music/converted_to_mp3/song.mp3"
    (Mock.boot (Mock.songs ["song.ogg"; "song.m4a"])).
Proof.
  destruct (same_base_name_same_output (Mock.tools []) "/music/converted_to_mp3"
              {| name := "song.ogg"; path := "/music/song.ogg"; is_file := true |}
              {| name := "song.m4a"; path := "/music/song.m4a"; is_file := true |}
              "song" ".ogg" ".m4a"
              eq_refl eq_refl eq_refl eq_refl
              (list_elem_of_here _ _)
              (list_elem_of_further _ _ _ (list_elem_of_here _ _)))
    as (H & _).
  split.
  - exact (proj1 (H {| name := "song.ogg"; path := "/music/song.ogg"; is_file := true |}
                    (Mock.boot (Mock.songs ["song.ogg"; "song.m4a"]))
                    (or_introl eq_refl))).
  - exact (proj1 (H {| name := "song.m4a"; path := "/music/song.m4a"; is_file := true |}
                    (Mock.boot (Mock.songs ["song.ogg"; "song.m4a"]))
                    (or_intror eq_refl))).
Defined.

Lemma branch_follows_sniffed_text_witness :
  ∃ delta1 delta2 b,
    fired delta1 = [b] ∧ fired delta2 = [b] ∧
    trace (snd (convert_audio (Mock.tools []) "/music/b.ogg" "/out/1.mp3"
                  (Mock.boot Mock.music))) =
      [] ++ EvRun ["file"; "-b"; "/music/b.ogg"]
              (Mock.completed 0 "Ogg data, Vorbis audio, stereo, 44100 Hz, ~128000 bps" "")
            :: delta1 ∧
    trace (snd (convert_audio (Mock.tools ["lame"]) "/music/song.ogg" "/out/2.mp3"
                  (Mock.boot (Mock.songs ["song.ogg"])))) =
      [] ++ EvRun ["file"; "-b"; "/music/song.ogg"]
              (Mock.completed 0 "Ogg data, Vorbis audio, stereo, 44100 Hz, ~128000 bps" "")
            :: delta2.
Proof.
  destruct (branch_follows_sniffed_text (Mock.tools []) (Mock.tools ["lame"])
              "/music/b.ogg" "/out/1.mp3" (Mock.boot Mock.music)
              {| returncode := 0;
                 stdout := "Ogg data, Vorbis audio, stereo, 44100 Hz, ~128000 bps";
                 stderr := "" |} Mock.music
              "/music/song.ogg" "/out/2.mp3" (Mock.boot (Mock.songs ["song.ogg"]))
              {| returncode := 0;
                 stdout := "Ogg data, Vorbis audio, stereo, 44100 Hz, ~128000 bps";
                 stderr := "" |} (Mock.songs ["song.ogg"])
              eq_refl eq_refl eq_refl)
    as ((delta1 & delta2 & b & H1 & H2 & H3 & H4) & _).
  exists delta1, delta2, b. repeat split; assumption.
Defined.
End Facts.

(** * Further properties of the script *)

Module Extra.
Import PyStr PosixPath OS ConvertAudio Observe StrFacts Facts.

Section WithTools.
Variable run_tool : list string → FS → result CompletedProcess * FS.

(** ** One conversion, from sniff to cleanup *)

Lemma remove_frame p (m m' : FS) :
  remove p m = Ok m' →
  m' !! p = None ∧
  ∀ q, q ≠ p → q ≠ dirname p ∨ isdir m q = false → m' !! q = m !! q.
Proof.
  unfold remove. destruct (m !! p) as [[c|ns]|] eqn:Hp; try done.
  intros [= <-]. split; [apply lookup_delete_eq |].
  intros q Hq Hq'. rewrite lookup_delete_ne by done.
  destruct (m !! dirname p) as [[c'|names]|] eqn:Hd; try done.
  destruct (decide (dirname p = q)) as [<-|Hne].
  - destruct Hq' as [|Hq']; [done |]. unfold isdir in Hq'. by rewrite Hd in Hq'.
  - by rewrite lookup_insert_ne.
Qed.

Lemma remove_not_file p (m : FS) :
  isfile m p = false → remove p m = Raise (remove_error m p).
Proof.
  unfold isfile, remove, remove_error, isdir.
  by destruct (m !! p) as [[c|ns]|].
Qed.

(** X1: the whole pipeline on success.  When the sniffed type starts with a
    decoder signature, the decoder and then [lame] exit 0 and the
    intermediate file is there after the encoding, [convert_audio] returns
    normally after exactly five calls, in this order: the sniff, the
    decoder, [lame], the removal of the intermediate file, the message.  The
    final file system is the one [lame] left, minus the intermediate file:
    that path is free again and every regular file, the output among them,
    is as [lame] left it. *)
Theorem conversion_pipeline_success input output st sniffed m1 decoded m2 encoded m3 :
  let temp := output +:+ ".temp.wav" in
  let b := select (stdout sniffed) in
  run_tool ["file"; "-b"; input] (fs st) = (Ok sniffed, m1) →
  matches_any (stdout sniffed) decoder_signatures = true →
  run_tool (decoder_argv b input temp) m1 = (Ok decoded, m2) →
  returncode decoded = 0 →
  run_tool ["lame"; "-h"; "-b"; "128"; temp; output] m2 = (Ok encoded, m3) →
  returncode encoded = 0 →
  isfile m3 temp = true →
  ∃ m4,
    convert_audio run_tool input output st =
      (Ok tt,
       {| fs := m4; cwd := cwd st;
          trace := trace st ++
            [EvRun ["file"; "-b"; input] (Ok sniffed);
             EvRun (decoder_argv b input temp) (Ok decoded);
             EvRun ["lame"; "-h"; "-b"; "128"; temp; output] (Ok encoded);
             EvRemove temp;
             EvPrint ("Successfully saved " +:+ output)] |}) ∧
    remove temp m3 = Ok m4 ∧
    m4 !! temp = None ∧
    (∀ q c, q ≠ temp → m3 !! q = Some (File c) → m4 !! q = Some (File c)).
Proof.
  intros temp b Hsniff Hsig Hdec Hrc1 Henc Hrc2 Hfile.
  destruct (remove_file _ _ Hfile) as (m4 & Hrm & Hgone).
  exists m4. split; [| split; [done | split; [done |]]].
  - rewrite convert_audio_eq, Hsniff. cbv beta iota zeta. fold b.
    rewrite decoding_body_eq by (subst b; by rewrite select_decoding).
    cbv zeta. change (fs (with_fs m1 _)) with m1. fold temp.
    rewrite Hdec. apply Z.eqb_eq in Hrc1 as ->.
    rewrite convert_to_mp3_eq. unfold encoder_argv.
    change (fs (with_fs m2 _)) with m2. rewrite Henc.
    apply Z.eqb_eq in Hrc2 as ->. rewrite Hrm.
    unfold emit, with_fs; simpl. by rewrite <- !app_assoc.
  - intros q c Hq Hqf. destruct (remove_frame _ _ _ Hrm) as [_ Hframe].
    rewrite Hframe; [done.. |]. right. unfold isdir. by rewrite Hqf.
Qed.

(** X2: a failing encoder does not stop anything.  When the decoder exits 0
    and [lame] exits with another status, [convert_audio] still returns
    normally: the value of [convert_to_mp3] is dropped.  It printed the
    encoder's error, removed nothing, and the file system is as [lame] left
    it, the intermediate file included; a loop over entries goes on. *)
Theorem encoder_failure_is_only_logged input output st sniffed m1 decoded m2 encoded m3 :
  let temp := output +:+ ".temp.wav" in
  let b := select (stdout sniffed) in
  run_tool ["file"; "-b"; input] (fs st) = (Ok sniffed, m1) →
  matches_any (stdout sniffed) decoder_signatures = true →
  run_tool (decoder_argv b input temp) m1 = (Ok decoded, m2) →
  returncode decoded = 0 →
  run_tool ["lame"; "-h"; "-b"; "128"; temp; output] m2 = (Ok encoded, m3) →
  returncode encoded ≠ 0 →
  let r := convert_audio run_tool input output st in
  r = (Ok tt,
       {| fs := m3; cwd := cwd st;
          trace := trace st ++
            [EvRun ["file"; "-b"; input] (Ok sniffed);
             EvRun (decoder_argv b input temp) (Ok decoded);
             EvRun ["lame"; "-h"; "-b"; "128"; temp; output] (Ok encoded);
             EvPrint ("Error while trying to encode " +:+ temp +:+ " to MP3: "
                      +:+ stdout encoded +:+ stderr encoded)] |}) ∧
  ∀ (A : Type) (body : A → M unit) (x : A) (l : list A),
    body x st = r → for_each (x :: l) body st = for_each l body (snd r).
Proof.
  intros temp b Hsniff Hsig Hdec Hrc1 Henc Hrc2 r.
  assert (r = (Ok tt,
       {| fs := m3; cwd := cwd st;
          trace := trace st ++
            [EvRun ["file"; "-b"; input] (Ok sniffed);
             EvRun (decoder_argv b input temp) (Ok decoded);
             EvRun ["lame"; "-h"; "-b"; "128"; temp; output] (Ok encoded);
             EvPrint ("Error while trying to encode " +:+ temp +:+ " to MP3: "
                      +:+ stdout encoded +:+ stderr encoded)] |})) as Hr.
  { subst r. rewrite convert_audio_eq, Hsniff. cbv beta iota zeta. fold b.
    rewrite decoding_body_eq by (subst b; by rewrite select_decoding).
    cbv zeta. change (fs (with_fs m1 _)) with m1. fold temp.
    rewrite Hdec. apply Z.eqb_eq in Hrc1 as ->.
    rewrite convert_to_mp3_eq. unfold encoder_argv.
    change (fs (with_fs m2 _)) with m2. rewrite Henc.
    apply Z.eqb_neq in Hrc2 as ->.
    unfold emit, with_fs; simpl. by rewrite <- !app_assoc. }
  split; [done |].
  intros A body x l Hbody. rewrite for_each_cons, Hbody, Hr. done.
Qed.

(** X3: the cleanup is not guarded.  When the decoder and [lame] exit 0 but
    the intermediate path is no regular file afterwards, [os.remove] raises
    ([IsADirectoryError] on a directory, [FileNotFoundError] otherwise) and
    so does [convert_audio]: the removal is its last call, the success
    message is never printed, and a loop over entries stops there. *)
Theorem missing_intermediate_file_raises input output st sniffed m1 decoded m2 encoded m3 :
  let temp := output +:+ ".temp.wav" in
  let b := select (stdout sniffed) in
  run_tool ["file"; "-b"; input] (fs st) = (Ok sniffed, m1) →
  matches_any (stdout sniffed) decoder_signatures = true →
  run_tool (decoder_argv b input temp) m1 = (Ok decoded, m2) →
  returncode decoded = 0 →
  run_tool ["lame"; "-h"; "-b"; "128"; temp; output] m2 = (Ok encoded, m3) →
  returncode encoded = 0 →
  isfile m3 temp = false →
  let r := convert_audio run_tool input output st in
  r = (Raise (remove_error m3 temp),
       {| fs := m3; cwd := cwd st;
          trace := trace st ++
            [EvRun ["file"; "-b"; input] (Ok sniffed);
             EvRun (decoder_argv b input temp) (Ok decoded);
             EvRun ["lame"; "-h"; "-b"; "128"; temp; output] (Ok encoded);
             EvRemove temp] |}) ∧
  ∀ (A : Type) (body : A → M unit) (x : A) (l : list A),
    body x st = r → for_each (x :: l) body st = r.
Proof.
  intros temp b Hsniff Hsig Hdec Hrc1 Henc Hrc2 Hfile r.
  assert (r = (Raise (remove_error m3 temp),
       {| fs := m3; cwd := cwd st;
          trace := trace st ++
            [EvRun ["file"; "-b"; input] (Ok sniffed);
             EvRun (decoder_argv b input temp) (Ok decoded);
             EvRun ["lame"; "-h"; "-b"; "128"; temp; output] (Ok encoded);
             EvRemove temp] |})) as Hr.
  { subst r. rewrite convert_audio_eq, Hsniff. cbv beta iota zeta. fold b.
    rewrite decoding_body_eq by (subst b; by rewrite select_decoding).
    cbv zeta. change (fs (with_fs m1 _)) with m1. fold temp.
    rewrite Hdec. apply Z.eqb_eq in Hrc1 as ->.
    rewrite convert_to_mp3_eq. unfold encoder_argv.
    change (fs (with_fs m2 _)) with m2. rewrite Henc.
    apply Z.eqb_eq in Hrc2 as ->. rewrite (remove_not_file _ _ Hfile).
    unfold emit, with_fs; simpl. by rewrite <- !app_assoc. }
  split; [done |].
  intros A body x l Hbody. rewrite for_each_cons, Hbody, Hr. done.
Qed.

(** ** The scan: what reaches the dispatcher, and in which order *)

Lemma dispatched_scan mp3_folder entry st :
  dispatched entry = true →
  scan_entry run_tool mp3_folder entry st =
    convert_audio run_tool (path entry)
      (join mp3_folder ((splitext (name entry)).1 +:+ ".mp3")) st.
Proof.
  unfold dispatched. intros [Hv Hext%bool_decide_eq_true]%andb_true_iff.
  by apply scan_entry_allowed.
Qed.

Lemma not_dispatched_scan mp3_folder entry st :
  dispatched entry = false →
  ∃ delta,
    scan_entry run_tool mp3_folder entry st =
      (Ok tt, {| fs := fs st; cwd := cwd st; trace := trace st ++ delta |}) ∧
    omap sniffed_path delta = [].
Proof.
  unfold dispatched. intros H. destruct (visible_file entry) eqn:Hv.
  - cbn [andb] in H. apply bool_decide_eq_false in H.
    rewrite scan_entry_other_extension by done. by eexists [EvPrint _].
  - rewrite scan_entry_filtered by done. exists [].
    rewrite app_nil_r. by destruct st.
Qed.

(** X4: a program that cannot be started ends the run.  When the scan
    reaches a dispatched entry and starting [file] raises (the binary is
    missing), the exception leaves the loop at once: the attempt is the last
    call, and no later entry is looked at, whatever the rest of the listing. *)
Theorem sniffer_start_failure_aborts_scan mp3_folder entry rest st e m1 :
  dispatched entry = true →
  run_tool ["file"; "-b"; path entry] (fs st) = (Raise e, m1) →
  for_each (entry :: rest) (scan_entry run_tool mp3_folder) st =
    (Raise e,
     {| fs := m1; cwd := cwd st;
        trace := trace st ++ [EvRun ["file"; "-b"; path entry] (Raise e)] |}).
Proof.
  intros Hd Hrun. rewrite for_each_cons, dispatched_scan by done.
  by rewrite convert_audio_eq, Hrun.
Qed.

Lemma omap_sniffed_quiet temp (rest : list event) :
  Forall (λ e, e = EvRemove temp ∨ ∃ line, e = EvPrint line) rest →
  omap sniffed_path rest = [].
Proof.
  induction 1 as [|e rest [->|[line ->]] _ IH]; [done | |]; by cbn.
Qed.

Lemma sniffed_path_decoder b input temp o :
  is_decoding b = true → sniffed_path (EvRun (decoder_argv b input temp) o) = None.
Proof. by destruct b. Qed.

Lemma omap_cons_none {A B : Type} (f : A → option B) x l :
  f x = None → omap f (x :: l) = omap f l.
Proof. intros H. cbn. by rewrite H. Qed.

Lemma branch_body_sniffs b input output audio_type st1 :
  ∃ delta,
    trace (snd (branch_body run_tool b input output audio_type st1)) = trace st1 ++ delta ∧
    omap sniffed_path delta = [].
Proof.
  destruct (is_decoding b) eqn:Hb.
  - rewrite decoding_body_eq by done. cbv zeta.
    set (temp := output +:+ ".temp.wav").
    destruct (run_tool (decoder_argv b input temp) (fs st1)) as [[cp|e] m2].
    + destruct (returncode cp =? 0).
      * destruct (convert_to_mp3_trace run_tool temp output
                    (with_fs m2 (emit (EvRun (decoder_argv b input temp) (Ok cp)) st1)))
          as (rest & Htr & Hquiet).
        eexists (EvRun (decoder_argv b input temp) (Ok cp) :: EvRun _ _ :: rest).
        split.
        { destruct (convert_to_mp3 _ _ _ _) as [[ok|x] st3]; cbn [snd] in *;
            rewrite Htr; cbn [trace with_fs emit fs]; by rewrite <- !app_assoc. }
        rewrite omap_cons_none by by apply sniffed_path_decoder.
        rewrite omap_cons_none by done. by eapply omap_sniffed_quiet.
      * exists [EvRun (decoder_argv b input temp) (Ok cp);
                EvPrint (decode_failure b input cp)].
        split; [cbn [snd trace with_fs emit fs]; by rewrite <- !app_assoc |].
        by rewrite omap_cons_none by by apply sniffed_path_decoder.
    + exists [EvRun (decoder_argv b input temp) (Raise e)].
      split; [done |].
      by rewrite omap_cons_none by by apply sniffed_path_decoder.
  - destruct b; try done.
    + rewrite copy_body_eq. cbv zeta.
      exists [EvPrint (already_mp3 input); EvCopy input output].
      split; [| done].
      destruct (copy input output (fs st1)); cbn [snd trace with_fs emit fs];
        by rewrite <- !app_assoc.
    + rewrite skip_body_eq. by exists [EvPrint (unidentified audio_type input)].
Qed.

Lemma convert_audio_sniffs input output st :
  ∃ delta,
    trace (snd (convert_audio run_tool input output st)) = trace st ++ delta ∧
    omap sniffed_path delta = [input].
Proof.
  rewrite convert_audio_eq.
  destruct (run_tool ["file"; "-b"; input] (fs st)) as [[sniffed|e] m1]; cbv zeta.
  - destruct (branch_body_sniffs (select (stdout sniffed)) input output (stdout sniffed)
                (with_fs m1 (emit (EvRun ["file"; "-b"; input] (Ok sniffed)) st)))
      as (delta & Htr & Hs).
    exists (EvRun ["file"; "-b"; input] (Ok sniffed) :: delta).
    split; [rewrite Htr; cbn [trace with_fs emit]; by rewrite <- app_assoc |].
    cbn. by rewrite Hs.
  - by exists [EvRun ["file"; "-b"; input] (Raise e)].
Qed.

(** X5: one sniff per dispatched entry, in enumeration order.  In the trace
    of any scan the files that were sniffed are, in order, the paths of the
    first entries of the listing that are visible regular files with an
    allow-listed extension; when the scan ends normally they are all of
    them.  An entry is never sniffed twice and never out of turn. *)
Theorem entries_are_sniffed_in_order mp3_folder item st :
  let r := for_each item (scan_entry run_tool mp3_folder) st in
  let expected := List.map path (List.filter dispatched item) in
  ∃ delta,
    trace (snd r) = trace st ++ delta ∧
    omap sniffed_path delta `prefix_of` expected ∧
    (fst r = Ok tt → omap sniffed_path delta = expected).
Proof.
  revert st. induction item as [|entry item IH]; intros st r expected.
  - exists []. split; [simpl; by rewrite app_nil_r | done].
  - subst r expected. rewrite for_each_cons. cbn [List.filter].
    destruct (dispatched entry) eqn:Hd.
    + rewrite dispatched_scan by done. cbn [List.map].
      destruct (convert_audio_sniffs (path entry)
                  (join mp3_folder ((splitext (name entry)).1 +:+ ".mp3")) st)
        as (delta1 & Htr1 & Hs1).
      destruct (convert_audio _ _ _ _) as [[[]|x] st'] eqn:Hconv; cbn [snd] in Htr1.
      * destruct (IH st') as (delta2 & Htr2 & Hpre & Hall).
        exists (delta1 ++ delta2).
        split; [by rewrite Htr2, Htr1, app_assoc |].
        rewrite omap_app, Hs1. cbn [app].
        split; [by apply prefix_cons | intros Hok; by rewrite Hall].
      * exists delta1. split; [done |]. rewrite Hs1.
        split; [apply prefix_cons, prefix_nil | done].
    + destruct (not_dispatched_scan mp3_folder entry st Hd) as (delta1 & -> & Hs1).
      destruct (IH {| fs := fs st; cwd := cwd st; trace := trace st ++ delta1 |})
        as (delta2 & Htr2 & Hpre & Hall).
      exists (delta1 ++ delta2).
      split; [rewrite Htr2; cbn [trace]; by rewrite app_assoc |].
      by rewrite omap_app, Hs1.
Qed.

(** ** Names: the stem, the extension, and where the output goes *)

Lemma extension_shape ext :
  ext ∈ extensions →
  ∃ b, ext = String extsep b ∧ rfind b extsep = -1 ∧ rfind ext sep = -1.
Proof.
  unfold extensions. rewrite !elem_of_cons, elem_of_nil.
  intros [->|[->|[->|[->|[->|[]]]]]]; by eexists.
Qed.

(** X6: an allow-listed extension comes off again.  For a name made of a
    stem without separator and an allow-listed extension, not starting with
    a dot, [os.path.splitext] gives back exactly the stem and the extension,
    dots inside the stem notwithstanding; so a regular file [<stem><ext>] is
    handed to [convert_audio] with the output path
    [join mp3_folder (<stem> + ".mp3")]. *)
Theorem allowed_name_goes_to_stem_mp3 stem ext :
  plain_name stem → startswith (stem +:+ ext) "." = false → ext ∈ extensions →
  splitext (stem +:+ ext) = (stem, ext) ∧
  ∀ mp3_folder entry st,
    name entry = stem +:+ ext → is_file entry = true →
    scan_entry run_tool mp3_folder entry st =
      convert_audio run_tool (path entry) (join mp3_folder (stem +:+ ".mp3")) st.
Proof.
  intros Hstem Hvis Hext.
  destruct (extension_shape ext Hext) as (b & -> & Hb & Hextsep).
  assert (splitext (stem +:+ String extsep b) = (stem, String extsep b)) as Hsplit.
  { destruct stem as [|a stem]; [done |].
    rewrite append_cons, startswith_cons, andb_true_r in Hvis.
    unfold splitext.
    assert (rfind (String a stem +:+ String extsep b) sep = -1) as ->
      by by apply rfind_app_none.
    rewrite rfind_app by done.
    change (String.length (String a stem)) with (S (String.length stem)).
    replace (Z.to_nat (Z.of_nat (S (String.length stem)) - (-1 + 1)))
      with (S (String.length stem)) by lia.
    replace (-1 <? Z.of_nat (S (String.length stem))) with true
      by (symmetry; apply Z.ltb_lt; lia).
    cbn [andb splitext_scan].
    replace (-1 + 1 <? Z.of_nat (S (String.length stem))) with true
      by (symmetry; apply Z.ltb_lt; lia).
    unfold char_at_differs. rewrite append_cons.
    change (Z.to_nat (-1 + 1)) with O. cbn [String.get].
    change (negb (a =? extsep)%char) with (negb (a =? ".")%char).
    rewrite Hvis. cbn [negb].
    rewrite Nat2Z.id.
    change (S (String.length stem)) with (String.length (String a stem)).
    rewrite <- (append_cons a stem (String extsep b)).
    by rewrite take_app, drop_app. }
  split; [done |].
  intros mp3_folder entry st Hname Hfile.
  rewrite scan_entry_allowed.
  - by rewrite Hname, Hsplit.
  - unfold visible_file. by rewrite Hname, Hvis, Hfile.
  - by rewrite Hname, Hsplit.
Qed.

(** ** The scan never names an input as a place to write *)




(** ** The start of the run: folders that are not there, or not folders *)

Lemma makedirs_rec_parent_exists depth (m : FS) d n names :
  tidy_dir d → plain_name n → n ≠ "" →
  m !! join d n = None → m !! d = Some (Dir names) →
  makedirs_rec depth (join d n) m =
    Ok (<[join d n := Dir []]> (<[d := Dir (link names (join d n))]> m)).
Proof.
  intros Hd Hn Hne Hfree Hdir.
  destruct depth as [|depth];
    cbn [makedirs_rec]; rewrite (split_join d n Hd Hn);
    (destruct n as [|x n]; [done |]); cbn [is_empty];
    unfold exists_; rewrite Hdir; rewrite andb_false_r;
    unfold mkdir, create; rewrite Hfree, (dirname_join d _ Hd Hn), Hdir; done.
Qed.

(** X8: a folder that does not exist is created.  When the absolute folder
    [d/n] is missing but its parent [d] is a directory, the run does not
    fail: [os.makedirs] on the output folder creates [d/n] on the way, the
    scan then finds only the fresh, empty output folder, which is no regular
    file, and [main] returns normally after the banner and that one call,
    leaving [d/n] with the single entry [converted_to_mp3]. *)
Theorem missing_folder_is_created args_folder st d n names :
  let folder := abspath (cwd st) args_folder in
  let mp3_folder := join folder "converted_to_mp3" in
  folder = join d n → tidy_dir d → plain_name n → n ≠ "" →
  fs st !! d = Some (Dir names) →
  fs st !! folder = None →
  fs st !! mp3_folder = None →
  ∃ m,
    main run_tool args_folder st =
      (Ok tt,
       {| fs := m; cwd := cwd st;
          trace := trace st ++
            [EvPrint ("Converting all audios in " +:+ folder
                      +:+ ": Saving MP3 files to " +:+ mp3_folder);
             EvMakedirs mp3_folder] |}) ∧
    m !! folder = Some (Dir ["converted_to_mp3"]) ∧
    m !! mp3_folder = Some (Dir []) ∧
    m !! d = Some (Dir (link names folder)).
Proof.
  intros folder mp3_folder Hfolder Hd Hn Hne Hparent Hfree Hfree'.
  assert (tidy_dir folder) as Htidy by apply abspath_tidy.
  assert (plain_name "converted_to_mp3") as Hplain by reflexivity.
  destruct (join_no_trailing_sep folder "converted_to_mp3" Htidy Hplain ltac:(done))
    as [Hmne Hend].
  assert (mp3_folder ≠ folder) as Hne1.
  { unfold mp3_folder. rewrite join_tidy by done.
    destruct (endswith_char folder sep); by apply append_ne_self. }
  assert (String.length folder < String.length mp3_folder)%nat as Hlen.
  { unfold mp3_folder. rewrite join_tidy by done.
    destruct (endswith_char folder sep); rewrite !length_append; simpl; lia. }
  assert (mp3_folder ≠ d) as Hne2.
  { intros Heq. pose proof (length_dirname folder) as Hl.
    rewrite Hfolder, (dirname_join d n Hd Hn) in Hl at 1.
    rewrite <- Heq in Hl. lia. }
  assert (folder ≠ d) as Hne3.
  { intros Heq. rewrite Heq in Hfree. by rewrite Hfree in Hparent. }
  set (m1 := <[folder := Dir []]> (<[d := Dir (link names folder)]> (fs st))).
  set (m2 := <[mp3_folder := Dir []]> (<[folder := Dir (link [] mp3_folder)]> m1)).
  assert (makedirs mp3_folder (fs st) = Ok m2) as Hmk.
  { unfold makedirs.
    destruct (String.length mp3_folder) as [|depth] eqn:Hl; [lia |].
    cbn [makedirs_rec]. unfold mp3_folder at 1.
    rewrite (split_join folder "converted_to_mp3" Htidy Hplain).
    cbn [is_empty negb andb].
    assert (is_empty folder = false) as -> by (destruct Htidy as [? _]; by destruct folder).
    unfold exists_ at 1. rewrite Hfree. cbn [negb andb].
    assert (makedirs_rec depth folder (fs st) = Ok m1) as ->.
    { rewrite Hfolder. rewrite Hfolder in Hfree.
      rewrite (makedirs_rec_parent_exists depth (fs st) d n names) by done.
      subst m1. by rewrite Hfolder. }
    rewrite bool_decide_eq_false_2 by done.
    unfold mkdir, create. fold mp3_folder.
    assert (m1 !! mp3_folder = None) as ->.
    { subst m1. by rewrite !lookup_insert_ne. }
    assert (dirname mp3_folder = folder) as Hdn by by apply dirname_join.
    rewrite !Hdn. subst m1. by rewrite lookup_insert_eq. }
  assert (m2 !! folder = Some (Dir ["converted_to_mp3"])) as Hlist.
  { subst m2. rewrite lookup_insert_ne by done. rewrite lookup_insert_eq.
    unfold link. unfold mp3_folder. by rewrite (basename_join folder _ Htidy Hplain). }
  exists m2. split; [| split; [done | split]].
  - rewrite main_eq. cbv zeta. fold folder. fold mp3_folder.
    unfold isdir at 1. rewrite Hfree', Hmk.
    unfold scandir. change (fs (with_fs m2 _)) with m2. rewrite Hlist.
    cbn [map]. fold mp3_folder. rewrite for_each_cons.
    rewrite scan_entry_filtered.
    + unfold for_each, mret, M_ret, emit, with_fs; simpl. by rewrite <- !app_assoc.
    + unfold visible_file. cbn [is_file]. unfold isfile.
      subst m2. rewrite lookup_insert_eq. apply andb_false_r.
  - subst m2. apply lookup_insert_eq.
  - subst m2 m1. rewrite !lookup_insert_ne by done. apply lookup_insert_eq.
Qed.

(** X9: the output folder's name taken by a file.  When the input folder is
    a directory but [converted_to_mp3] in it exists and is no directory,
    [os.makedirs] raises [FileExistsError] right after the banner: nothing is
    created, nothing is scanned, no program is started. *)
Theorem output_folder_name_taken args_folder st names c :
  let folder := abspath (cwd st) args_folder in
  let mp3_folder := join folder "converted_to_mp3" in
  fs st !! folder = Some (Dir names) →
  fs st !! mp3_folder = Some (File c) →
  main run_tool args_folder st =
    (Raise FileExistsError,
     {| fs := fs st; cwd := cwd st;
        trace := trace st ++
          [EvPrint ("Converting all audios in " +:+ folder
                    +:+ ": Saving MP3 files to " +:+ mp3_folder);
           EvMakedirs mp3_folder] |}).
Proof.
  intros folder mp3_folder Hfolder Hfile.
  assert (tidy_dir folder) as Htidy by apply abspath_tidy.
  assert (plain_name "converted_to_mp3") as Hplain by reflexivity.
  assert (makedirs mp3_folder (fs st) = Raise FileExistsError) as Hmk.
  { unfold makedirs.
    destruct (String.length mp3_folder) as [|depth];
      cbn [makedirs_rec]; unfold mp3_folder at 1;
      rewrite (split_join folder "converted_to_mp3" Htidy Hplain);
      cbn [is_empty negb andb]; unfold exists_; rewrite Hfolder;
      rewrite andb_false_r; unfold mkdir; fold mp3_folder; by rewrite Hfile. }
  rewrite main_eq. cbv zeta. fold folder. fold mp3_folder.
  unfold isdir. rewrite Hfile, Hmk.
  unfold emit; simpl. by rewrite <- !app_assoc.
Qed.

(** X10: the argument names a regular file.  When the absolute "folder" is
    a regular file, the run stops in [os.makedirs] with [NotADirectoryError]
    right after the banner: nothing is scanned, no program is started. *)
Theorem folder_is_a_regular_file args_folder st c :
  let folder := abspath (cwd st) args_folder in
  let mp3_folder := join folder "converted_to_mp3" in
  fs st !! folder = Some (File c) →
  fs st !! mp3_folder = None →
  main run_tool args_folder st =
    (Raise NotADirectoryError,
     {| fs := fs st; cwd := cwd st;
        trace := trace st ++
          [EvPrint ("Converting all audios in " +:+ folder
                    +:+ ": Saving MP3 files to " +:+ mp3_folder);
           EvMakedirs mp3_folder] |}).
Proof.
  intros folder mp3_folder Hfolder Hfree.
  assert (tidy_dir folder) as Htidy by apply abspath_tidy.
  assert (plain_name "converted_to_mp3") as Hplain by reflexivity.
  assert (dirname mp3_folder = folder) as Hdn by by apply dirname_join.
  assert (makedirs mp3_folder (fs st) = Raise NotADirectoryError) as Hmk.
  { unfold makedirs.
    destruct (String.length mp3_folder) as [|depth];
      cbn [makedirs_rec]; unfold mp3_folder at 1;
      rewrite (split_join folder "converted_to_mp3" Htidy Hplain);
      cbn [is_empty negb andb]; unfold exists_; rewrite Hfolder;
      rewrite andb_false_r; unfold mkdir, create; fold mp3_folder;
      by rewrite Hfree, Hdn, Hfolder. }
  rewrite main_eq. cbv zeta. fold folder. fold mp3_folder.
  unfold isdir. rewrite Hfree, Hmk.
  unfold emit; simpl. by rewrite <- !app_assoc.
Qed.

End WithTools.

(** ** The properties at work in small worlds *)

Lemma conversion_pipeline_success_witness :
  fst (convert_audio (Mock.tools []) "/music/b.ogg" "/music/b.mp3" (Mock.boot Mock.music))
    = Ok tt.
Proof.
  destruct (conversion_pipeline_success (Mock.tools []) "/music/b.ogg" "/music/b.mp3"
              (Mock.boot Mock.music)
              {| returncode := 0;
                 stdout := "Ogg data, Vorbis audio, stereo, 44100 Hz, ~128000 bps";
                 stderr := "" |}
              Mock.music
              {| returncode := 0; stdout := ""; stderr := "" |}
              (snd (Mock.tools [] ["oggdec"; "/music/b.ogg"; "-o"; "/music/b.mp3.temp.wav"]
                      Mock.music))
              {| returncode := 0; stdout := ""; stderr := "" |}
              (snd (Mock.tools []
                      ["lame"; "-h"; "-b"; "128"; "/music/b.mp3.temp.wav"; "/music/b.mp3"]
                      (snd (Mock.tools []
                              ["oggdec"; "/music/b.ogg"; "-o"; "/music/b.mp3.temp.wav"]
                              Mock.music))))
              eq_refl eq_refl eq_refl eq_refl eq_refl eq_refl eq_refl)
    as (m4 & Heq & _).
  rewrite Heq. reflexivity.
Defined.

Lemma encoder_failure_is_only_logged_witness :
  fst (convert_audio (Mock.tools ["lame"]) "/music/b.ogg" "/music/b.mp3"
         (Mock.boot Mock.music)) = Ok tt.
Proof.
  destruct (encoder_failure_is_only_logged (Mock.tools ["lame"]) "/music/b.ogg"
              "/music/b.mp3" (Mock.boot Mock.music)
              {| returncode := 0;
                 stdout := "Ogg data, Vorbis audio, stereo, 44100 Hz, ~128000 bps";
                 stderr := "" |}
              Mock.music
              {| returncode := 0; stdout := ""; stderr := "" |}
              (snd (Mock.tools ["lame"]
                      ["oggdec"; "/music/b.ogg"; "-o"; "/music/b.mp3.temp.wav"] Mock.music))
              {| returncode := 1; stdout := ""; stderr := "lame: failed" |}
              (snd (Mock.tools ["lame"]
                      ["oggdec"; "/music/b.ogg"; "-o"; "/music/b.mp3.temp.wav"] Mock.music))
              eq_refl eq_refl eq_refl eq_refl eq_refl ltac:(discriminate))
    as (Heq & _).
  rewrite Heq. reflexivity.
Defined.

Lemma missing_intermediate_file_raises_witness :
  fst (convert_audio Mock.idle "/music/b.ogg" "/music/b.mp3" (Mock.boot Mock.music))
    = Raise FileNotFoundError.
Proof.
  destruct (missing_intermediate_file_raises Mock.idle "/music/b.ogg" "/music/b.mp3"
              (Mock.boot Mock.music)
              {| returncode := 0; stdout := "Ogg data, Opus audio"; stderr := "" |}
              Mock.music
              {| returncode := 0; stdout := ""; stderr := "" |} Mock.music
              {| returncode := 0; stdout := ""; stderr := "" |} Mock.music
              eq_refl eq_refl eq_refl eq_refl eq_refl eq_refl eq_refl)
    as (Heq & _).
  rewrite Heq. reflexivity.
Defined.

Lemma sniffer_start_failure_aborts_scan_witness :
  fst (for_each
         [{| name := "b.ogg"; path := "/music/b.ogg"; is_file := true |};
          {| name := "c.m4a"; path := "/music/c.m4a"; is_file := true |}]
         (scan_entry Mock.none_installed "/music/converted_to_mp3")
         (Mock.boot Mock.music)) = Raise FileNotFoundError.
Proof.
  rewrite (sniffer_start_failure_aborts_scan Mock.none_installed "/music/converted_to_mp3"
             {| name := "b.ogg"; path := "/music/b.ogg"; is_file := true |}
             [{| name := "c.m4a"; path := "/music/c.m4a"; is_file := true |}]
             (Mock.boot Mock.music) FileNotFoundError Mock.music eq_refl eq_refl).
  reflexivity.
Defined.

Lemma entries_are_sniffed_in_order_witness :
  ∃ delta,
    trace (snd (for_each
                  [{| name := "a.mp3"; path := "/music/a.mp3"; is_file := true |};
                   {| name := "b.ogg"; path := "/music/b.ogg"; is_file := true |};
                   {| name := "c.m4a"; path := "/music/c.m4a"; is_file := true |}]
                  (scan_entry (Mock.tools []) "/music/converted_to_mp3")
                  (Mock.boot Mock.music))) = [] ++ delta ∧
    omap sniffed_path delta = ["/music/b.ogg"; "/music/c.m4a"].
Proof.
  destruct (entries_are_sniffed_in_order (Mock.tools []) "/music/converted_to_mp3"
              [{| name := "a.mp3"; path := "/music/a.mp3"; is_file := true |};
               {| name := "b.ogg"; path := "/music/b.ogg"; is_file := true |};
               {| name := "c.m4a"; path := "/music/c.m4a"; is_file := true |}]
              (Mock.boot Mock.music)) as (delta & Htr & _ & Hall).
  exists delta. split; [exact Htr | exact (Hall eq_refl)].
Defined.

Lemma allowed_name_goes_to_stem_mp3_witness :
  splitext "take.2.final.opus" = ("take.2.final", ".opus").
Proof.
  destruct (allowed_name_goes_to_stem_mp3 (Mock.tools []) "take.2.final" ".opus"
              eq_refl eq_refl
              (list_elem_of_further _ _ _
                 (list_elem_of_further _ _ _ (list_elem_of_here _ _))))
    as (H & _).
  exact H.
Defined.


Lemma missing_folder_is_created_witness :
  ∃ m,
    fst (main (Mock.tools []) "musik" (Mock.boot Mock.music)) = Ok tt ∧
    fs (snd (main (Mock.tools []) "musik" (Mock.boot Mock.music))) = m ∧
    m !! "/musik" = Some (Dir ["converted_to_mp3"]).
Proof.
  assert (abspath (cwd (Mock.boot Mock.music)) "musik" = join "/" "musik") as H1
    by (vm_compute; reflexivity).
  assert (fs (Mock.boot Mock.music) !! "/" = Some (Dir ["music"])) as H2
    by (vm_compute; reflexivity).
  assert (fs (Mock.boot Mock.music) !! abspath (cwd (Mock.boot Mock.music)) "musik" = None)
    as H3 by (vm_compute; reflexivity).
  assert (fs (Mock.boot Mock.music)
            !! join (abspath (cwd (Mock.boot Mock.music)) "musik") "converted_to_mp3" = None)
    as H4 by (vm_compute; reflexivity).
  assert (tidy_dir "/") as H5 by (split; [discriminate | right; reflexivity]).
  assert (plain_name "musik") as H6 by reflexivity.
  assert ("musik" ≠ "") as H7 by discriminate.
  pose proof (missing_folder_is_created (Mock.tools []) "musik" (Mock.boot Mock.music)
                "/" "musik" ["music"] H1 H5 H6 H7 H2 H3 H4) as (m & Heq & Hfolder & _).
  exists m. rewrite Heq. split; [reflexivity | split; [reflexivity | exact Hfolder]].
Defined.

Lemma output_folder_name_taken_witness :
  fst (main (Mock.tools []) "/music"
         (Mock.boot (<["/music/converted_to_mp3" := File "in the way"]> Mock.music)))
    = Raise FileExistsError.
Proof.
  set (st := Mock.boot (<["/music/converted_to_mp3" := File "in the way"]> Mock.music)).
  assert (fs st !! abspath (cwd st) "/music"
          = Some (Dir ["a.mp3"; "b.ogg"; "c.m4a"; "d.txt"])) as H1
    by (vm_compute; reflexivity).
  assert (fs st !! join (abspath (cwd st) "/music") "converted_to_mp3"
          = Some (File "in the way")) as H2
    by (vm_compute; reflexivity).
  rewrite (output_folder_name_taken (Mock.tools []) "/music" st
             ["a.mp3"; "b.ogg"; "c.m4a"; "d.txt"] "in the way" H1 H2).
  reflexivity.
Defined.

Lemma folder_is_a_regular_file_witness :
  fst (main (Mock.tools []) "music/d.txt" (Mock.boot Mock.music))
    = Raise NotADirectoryError.
Proof.
  assert (fs (Mock.boot Mock.music) !! abspath (cwd (Mock.boot Mock.music)) "music/d.txt"
          = Some (File "notes")) as H1
    by (vm_compute; reflexivity).
  assert (fs (Mock.boot Mock.music)
            !! join (abspath (cwd (Mock.boot Mock.music)) "music/d.txt") "converted_to_mp3"
          = None) as H2
    by (vm_compute; reflexivity).
  rewrite (folder_is_a_regular_file (Mock.tools []) "music/d.txt" (Mock.boot Mock.music)
             "notes" H1 H2).
  reflexivity.
Defined.
End Extra.
